(** * oracle_challenge.py: quote aggregation, quorum and submission schema

    A shallow embedding of [oracle_challenge.py] (response parsers,
    [collect_prices], [build_submission], [validate_submission_payload])
    and the properties its specification states about them.

    Python objects are a small tagged union ([value]); a [dict] is an
    association list in insertion order, because [parse_kraken] reads the
    first key of one.  A Python [float] is a binary64 [float] of the kernel.
    An exception is a value of the [result] monad.  The network, the wall
    clock and two builtins whose algorithms live in the interpreter
    ([float] applied to a [str], [repr] of an object) are parameters of the
    definitions that reach them. *)

From Stdlib Require Import ZArith List String Ascii Bool Lia.
From Stdlib Require Import Permutation Sorted ListSet.
From Stdlib Require Import Floats.
Import ListNotations.

Local Open Scope string_scope.
Local Open Scope list_scope.

(** ** Python objects *)

#[warnings="-register-all"] Inductive value : Type :=
| VNone
| VBool (b : bool)
| VInt (z : Z)
| VFloat (f : float)
| VStr (s : string)
| VList (items : list value)
| VDict (entries : list (string * value)).

(** A [Dict[str, Any]], in insertion order; a lookup finds the first entry
    of a key, and a dict built by the interpreter holds a key once. *)
Definition dict : Type := list (string * value).

(** An f-string, kept as its pieces: literal text and formatted objects
    ([Fmt v] stands for [format(v)], which is [str(v)]). *)
Inductive piece : Type :=
| Lit (text : string)
| Fmt (v : value).

Definition message : Type := list piece.

(** ** Exceptions *)

Inductive exn_class : Type :=
| Exception
| OSError
| URLError
| HTTPError
| TimeoutError
| HTTPException
| ValueError
| JSONDecodeError
| StatisticsError
| LookupError
| KeyError
| IndexError
| TypeError
| AttributeError
| ArithmeticError
| OverflowError
| RuntimeError.

Definition exn_class_eqb (a b : exn_class) : bool :=
  match a, b with
  | Exception, Exception | OSError, OSError | URLError, URLError
  | HTTPError, HTTPError | TimeoutError, TimeoutError
  | HTTPException, HTTPException | ValueError, ValueError
  | JSONDecodeError, JSONDecodeError | StatisticsError, StatisticsError
  | LookupError, LookupError | KeyError, KeyError | IndexError, IndexError
  | TypeError, TypeError | AttributeError, AttributeError
  | ArithmeticError, ArithmeticError | OverflowError, OverflowError
  | RuntimeError, RuntimeError => true
  | _, _ => false
  end.

(** The class and its bases, as the interpreter and the libraries declare
    them ([urllib.error], [json], [statistics], [http.client]). *)
Definition mro (c : exn_class) : list exn_class :=
  match c with
  | Exception => [Exception]
  | OSError => [OSError; Exception]
  | URLError => [URLError; OSError; Exception]
  | HTTPError => [HTTPError; URLError; OSError; Exception]
  | TimeoutError => [TimeoutError; OSError; Exception]
  | HTTPException => [HTTPException; Exception]
  | ValueError => [ValueError; Exception]
  | JSONDecodeError => [JSONDecodeError; ValueError; Exception]
  | StatisticsError => [StatisticsError; ValueError; Exception]
  | LookupError => [LookupError; Exception]
  | KeyError => [KeyError; LookupError; Exception]
  | IndexError => [IndexError; LookupError; Exception]
  | TypeError => [TypeError; Exception]
  | AttributeError => [AttributeError; Exception]
  | ArithmeticError => [ArithmeticError; Exception]
  | OverflowError => [OverflowError; ArithmeticError; Exception]
  | RuntimeError => [RuntimeError; Exception]
  end.

(** A raised exception: its class and the text it was built with.  The
    wording of the interpreter's own errors is not modelled and is left
    empty, except a [KeyError], which carries the key. *)
Record exn : Type := mk_exn { exn_cls : exn_class; exn_msg : message }.

(** [isinstance(e, classes)] for a tuple of classes. *)
Definition isinstance (e : exn) (classes : list exn_class) : bool :=
  existsb (fun c => existsb (exn_class_eqb c) (mro (exn_cls e))) classes.

Inductive result (A : Type) : Type :=
| Ok (a : A)
| Raise (e : exn).

Arguments Ok {A} a.
Arguments Raise {A} e.

Definition bind {A B : Type} (r : result A) (k : A -> result B) : result B :=
  match r with
  | Ok a => k a
  | Raise e => Raise e
  end.

Notation "x <- r ;; k" := (bind r (fun x => k))
  (at level 61, r at next level, right associativity).

Definition raise {A : Type} (c : exn_class) (m : message) : result A :=
  Raise (mk_exn c m).

(** ** Builtins *)

(** [bool(v)]. *)
Definition truthy (v : value) : bool :=
  match v with
  | VNone => false
  | VBool b => b
  | VInt z => negb (z =? 0)%Z
  | VFloat f => negb (f =? 0)%float
  | VStr s => negb (s =? "")
  | VList items => match items with [] => false | _ => true end
  | VDict entries => match entries with [] => false | _ => true end
  end.

Fixpoint dict_get (d : dict) (k : string) : option value :=
  match d with
  | [] => None
  | (k', v) :: rest => if k' =? k then Some v else dict_get rest k
  end.

(** [k in d]. *)
Definition dict_has (d : dict) (k : string) : bool :=
  match dict_get d k with Some _ => true | None => false end.

Definition keys (d : dict) : list string := map fst d.

(** [v[k]] for a [str] key [k]. *)
Definition getitem (v : value) (k : string) : result value :=
  match v with
  | VDict d =>
      match dict_get d k with
      | Some x => Ok x
      | None => raise KeyError [Fmt (VStr k)]
      end
  | _ => raise TypeError []
  end.

(** [v[0]]. *)
Definition getitem0 (v : value) : result value :=
  match v with
  | VList (x :: _) => Ok x
  | VList [] => raise IndexError []
  | VStr (String c _) => Ok (VStr (String c EmptyString))
  | VStr EmptyString => raise IndexError []
  | VDict _ => raise KeyError [Fmt (VInt 0)]
  | _ => raise TypeError []
  end.

(** [v.get(k)]: only a dict has the method. *)
Definition method_get (v : value) (k : string) : result value :=
  match v with
  | VDict d =>
      match dict_get d k with
      | Some x => Ok x
      | None => Ok VNone
      end
  | _ => raise AttributeError []
  end.

(** [s.endswith(suffix)]. *)
Definition endswith (s suffix : string) : bool :=
  let n := String.length s in
  let m := String.length suffix in
  if (m <=? n)%nat then substring (n - m) m s =? suffix else false.

(** [sorted(l)] for a list compared with [lt] only: the stable insertion
    of each element before the first one that is not below it.  On a list
    whose elements [lt] orders totally every stable sort returns this list;
    a list of floats holding a NaN is outside that case: there the order
    the interpreter's sort leaves depends on its algorithm, and differs
    from this one (of 3, 2, NaN and 1 [statistics.median] returns 2.5 where
    [median] below returns the NaN).  The properties that speak of the
    value of a median are stated of prices that are no NaN. *)
Section Sorted.
Context {A : Type} (lt : A -> A -> bool).

Fixpoint insert_sorted (x : A) (l : list A) : list A :=
  match l with
  | [] => [x]
  | y :: l' => if lt y x then y :: insert_sorted x l' else x :: y :: l'
  end.

Fixpoint sorted (l : list A) : list A :=
  match l with
  | [] => []
  | x :: l' => insert_sorted x (sorted l')
  end.

End Sorted.

(** ** Floats *)

Definition round_half_even (n d : Z) : Z :=
  let q := (n / d)%Z in
  match (2 * (n mod d) ?= d)%Z with
  | Lt => q
  | Gt => (q + 1)%Z
  | Eq => if Z.even q then q else (q + 1)%Z
  end.

(** The binary64 nearest to [n / d], ties to even. *)
Definition float_of_ratio (s : bool) (n d : positive) : float :=
  SF2Prim (SFdiv prec emax (S754_finite s n 0) (S754_finite false d 0)).

(** [round(x, 6)] of a float: CPython renders the exact binary value with
    six digits after the point, half to even, and reads the decimal back
    to the nearest float; an infinity, a NaN and an integral float are
    returned as they are. *)
Definition round6 (x : float) : float :=
  match Prim2SF x with
  | S754_finite s m e =>
      if (0 <=? e)%Z then x
      else
        match round_half_even (Zpos m * 1000000) (2 ^ (- e)) with
        | Zpos n => float_of_ratio s n 1000000
        | _ => if s then neg_zero else zero
        end
  | _ => x
  end.

(** [float(z)] of an [int]: the nearest binary64, ties to even, and
    [OverflowError] past the largest one. *)
Definition float_of_int (z : Z) : result float :=
  match binary_normalize prec emax z 0 false with
  | S754_infinity _ => raise OverflowError []
  | sf => Ok (SF2Prim sf)
  end.

Section Interpreter.

(** [float(s)] of a [str]: the parsed float, or [None] where the
    interpreter raises [ValueError]. *)
Variable float_of_str : string -> option float.

(** [repr(v)] of an object that is not a [str]. *)
Variable repr : value -> string.

(** [float(v)]. *)
Definition py_float (v : value) : result float :=
  match v with
  | VFloat f => Ok f
  | VInt z => float_of_int z
  | VBool b => Ok (if b then 1%float else 0%float)
  | VStr s =>
      match float_of_str s with
      | Some f => Ok f
      | None => raise ValueError []
      end
  | _ => raise TypeError []
  end.

(** [str(v)]. *)
Definition py_str (v : value) : string :=
  match v with
  | VStr s => s
  | _ => repr v
  end.

(** ** Response parsers *)

Definition parse_coingecko (payload : value) : result float :=
  near <- getitem payload "near";;
  usd <- getitem near "usd";;
  py_float usd.

Definition parse_coinbase (payload : value) : result float :=
  data <- getitem payload "data";;
  amount <- getitem data "amount";;
  py_float amount.

Definition parse_binance (payload : value) : result float :=
  price <- getitem payload "price";;
  py_float price.

Definition parse_kraken (payload : value) : result float :=
  err <- method_get payload "error";;
  if truthy err then
    shown <- getitem payload "error";;
    raise ValueError [Lit "Kraken returned errors: "; Fmt shown]
  else
    res <- method_get payload "result";;
    match res with
    | VDict ((first_key, _) :: _) =>
        entry <- getitem res first_key;;
        c <- getitem entry "c";;
        close <- getitem0 c;;
        py_float close
    | _ => raise ValueError [Lit "Kraken payload missing result"]
    end.

Definition parse_cryptocompare (payload : value) : result float :=
  usd <- getitem payload "USD";;
  py_float usd.

(** ** Sources *)

Record Source : Type := mk_source {
  name : string;
  url : string;
  parser : value -> result float
}.

Definition SOURCES : list Source :=
  [ mk_source "coingecko"
      "https://api.coingecko.com/api/v3/simple/price?ids=near&vs_currencies=usd"
      parse_coingecko;
    mk_source "coinbase"
      "https://api.coinbase.com/v2/prices/NEAR-USD/spot"
      parse_coinbase;
    mk_source "kraken"
      "https://api.kraken.com/0/public/Ticker?pair=NEARUSD"
      parse_kraken;
    mk_source "cryptocompare"
      "https://min-api.cryptocompare.com/data/price?fsym=NEAR&tsyms=USD"
      parse_cryptocompare;
    mk_source "binance"
      "https://api.binance.com/api/v3/ticker/price?symbol=NEARUSDT"
      parse_binance ].

(** [utc_now_iso()]: [clock] is the wall clock rendered by
    ["%Y-%m-%dT%H:%M:%S"]; the format string ends in a literal [Z]. *)
Definition utc_now_iso (clock : string) : string := clock ++ "Z".

(** ** Collection *)

(** One line of the run log (the latency, a reading of the monotonic
    clock, is left out). *)
Inductive log_event : Type :=
| api_call_success (api : string) (status bytes : Z) (price : float) (link : string)
| api_call_failure (api : string) (error : exn) (link : string).

(** A [{"api": ..., "error": str(exc)}] entry. *)
Record failure : Type := mk_failure { failed_api : string; failed_error : message }.

Record collected : Type := mk_collected {
  successes : list value;
  failures : list failure;
  run_log : list log_event
}.

Section Collect.

(** [fetch_json(url, timeout)] for the run's timeout: the decoded body, the
    status code and the byte count, or what the call raised. *)
Variable fetch_json : string -> result (value * Z * Z).

(** The wall clock read while the [n]-th source is handled. *)
Variable clock : nat -> string.

(** The classes of the [except] clause of [collect_prices]. *)
Definition handled : list exn_class :=
  [HTTPError; URLError; TimeoutError; ValueError; KeyError; TypeError;
   JSONDecodeError].

(** The body of the [try] block for one source. *)
Definition try_source (source : Source) (n : nat) : result (value * log_event) :=
  fetched <- fetch_json (url source);;
  let '(payload, status_code, byte_count) := fetched in
  price <- parser source payload;;
  if (price <=? 0)%float then
    raise ValueError [Lit "Non-positive price: "; Fmt (VFloat price)]
  else
    let timestamp := utc_now_iso (clock n) in
    Ok (VDict [("api", VStr (name source));
               ("price", VFloat (round6 price));
               ("timestamp", VStr timestamp)],
        api_call_success (name source) status_code byte_count price (url source)).

(** The [for] loop, from the [n]-th source on; an exception outside
    [handled] leaves the loop and the function. *)
Fixpoint collect_from (sources : list Source) (n : nat) (acc : collected)
  : result collected :=
  match sources with
  | [] => Ok acc
  | source :: rest =>
      match try_source source n with
      | Ok (point, event) =>
          collect_from rest (S n)
            (mk_collected (successes acc ++ [point]) (failures acc)
                          (run_log acc ++ [event]))
      | Raise exc =>
          if isinstance exc handled then
            collect_from rest (S n)
              (mk_collected (successes acc)
                 (failures acc ++ [mk_failure (name source) (exn_msg exc)])
                 (run_log acc ++ [api_call_failure (name source) exc (url source)]))
          else Raise exc
      end
  end.

Definition collect_prices (sources : list Source) : result collected :=
  collect_from sources 0 (mk_collected [] [] []).

End Collect.

(** ** Aggregation *)

(** [data[i]] of a list. *)
Definition list_index (data : list float) (i : nat) : result float :=
  match nth_error data i with
  | Some x => Ok x
  | None => raise IndexError []
  end.

(** [statistics.median]. *)
Definition median (data : list float) : result float :=
  let data := sorted PrimFloat.ltb data in
  let n := List.length data in
  if (n =? 0)%nat then raise StatisticsError [Lit "no median for empty data"]
  else if (n mod 2 =? 1)%nat then list_index data (n / 2)
  else
    let i := (n / 2)%nat in
    a <- list_index data (i - 1);;
    b <- list_index data i;;
    Ok ((a + b) / 2)%float.

(** [[float(item["price"]) for item in source_points]]. *)
Fixpoint prices_of (source_points : list value) : result (list float) :=
  match source_points with
  | [] => Ok []
  | item :: rest =>
      price <- getitem item "price";;
      p <- py_float price;;
      ps <- prices_of rest;;
      Ok (p :: ps)
  end.

Definition build_submission (clock : string) (source_points : list value)
  (code_or_logs : string) (min_sources : Z) : result dict :=
  if (Z.of_nat (List.length source_points) <? min_sources)%Z then
    raise RuntimeError
      [Lit "Only "; Fmt (VInt (Z.of_nat (List.length source_points)));
       Lit " source(s) succeeded. Minimum required: "; Fmt (VInt min_sources);
       Lit "."]
  else
    ps <- prices_of source_points;;
    median_price <- median ps;;
    Ok [("median_price_usd", VFloat (round6 median_price));
        ("sources", VList source_points);
        ("calculation_method", VStr "median");
        ("calculated_at", VStr (utc_now_iso clock));
        ("code_or_logs", VStr code_or_logs)].

(** ** Validation *)

Definition required_top_level : set string :=
  ["median_price_usd"; "sources"; "calculation_method"; "calculated_at";
   "code_or_logs"].

(** [v != s] for a [str] literal [s]. *)
Definition differs_from_str (v : value) (s : string) : bool :=
  match v with
  | VStr s' => negb (s' =? s)
  | _ => true
  end.

(** The first of [wanted] that [item] lacks. *)
Fixpoint first_missing (item : dict) (wanted : list string) : option string :=
  match wanted with
  | [] => None
  | key :: rest =>
      if dict_has item key then first_missing item rest else Some key
  end.

(** The body of the loop over the source entries; the result is
    [seen_apis] after the entry. *)
Definition validate_entry (seen_apis : set string) (item : value)
  : result (set string) :=
  match item with
  | VDict d =>
      match first_missing d ["api"; "price"; "timestamp"] with
      | Some key => raise ValueError [Lit "Source entry missing key: "; Lit key]
      | None =>
          api <- getitem item "api";;
          let api_name := py_str api in
          if set_mem string_dec api_name seen_apis then
            raise ValueError [Lit "Duplicate API source found: "; Lit api_name]
          else
            let seen_apis := set_add string_dec api_name seen_apis in
            price <- getitem item "price";;
            p <- py_float price;;
            if (p <=? 0)%float then
              raise ValueError
                [Lit "Invalid non-positive price for source: "; Lit api_name]
            else
              timestamp <- getitem item "timestamp";;
              if endswith (py_str timestamp) "Z" then Ok seen_apis
              else
                raise ValueError
                  [Lit "Timestamp must be UTC ISO string ending with 'Z': ";
                   Lit api_name]
      end
  | _ => raise ValueError [Lit "Each source entry must be an object"]
  end.

Fixpoint validate_entries (seen_apis : set string) (sources : list value)
  : result unit :=
  match sources with
  | [] => Ok tt
  | item :: rest =>
      seen_apis <- validate_entry seen_apis item;;
      validate_entries seen_apis rest
  end.

Definition validate_submission_payload (payload : dict) (min_sources : Z)
  : result unit :=
  let missing := set_diff string_dec required_top_level (keys payload) in
  match missing with
  | _ :: _ =>
      raise ValueError
        [Lit "Submission missing required top-level fields: ";
         Fmt (VList (map VStr (sorted String.ltb missing)))]
  | [] =>
      method <- getitem (VDict payload) "calculation_method";;
      if differs_from_str method "median" then
        raise ValueError [Lit "calculation_method must be 'median'"]
      else
        sources <- getitem (VDict payload) "sources";;
        let too_few :=
          raise ValueError
            [Lit "sources must contain at least "; Fmt (VInt min_sources);
             Lit " entries"] in
        match sources with
        | VList items =>
            if (Z.of_nat (List.length items) <? min_sources)%Z then too_few
            else validate_entries (empty_set string) items
        | _ => too_few
        end
  end.

End Interpreter.

(** ** The notions of the specification *)

(** The order of the sorted sequence the median is read from. *)
Definition fle (a b : float) : Prop := (a <=? b)%float = true.

(** The statistical median as the specification words it: [m] is the
    middle value of the prices put in order when their count is odd, and
    the average of the two middle values when it is even. *)
Definition spec_median (xs : list float) (m : float) : Prop :=
  exists s : list float,
    Permutation s xs /\ Sorted fle s /\
    if Nat.odd (List.length xs) then nth_error s (List.length xs / 2) = Some m
    else
      exists a b : float,
        nth_error s (List.length xs / 2 - 1) = Some a /\
        nth_error s (List.length xs / 2) = Some b /\
        m = ((a + b) / 2)%float.

(** The magnitude [m * 2^e] of a finite float in millionths, as a
    fraction of integers: numerator and denominator. *)
Definition scaled (m : positive) (e : Z) : Z * Z :=
  if (0 <=? e)%Z then (Zpos m * 2 ^ e * 1000000, 1)%Z
  else (Zpos m * 1000000, 2 ^ (- e))%Z.

(** [n] is the integer nearest to [num / den]; of two integers equally
    near, the even one. *)
Definition nearest_even (num den n : Z) : Prop :=
  (2 * Z.abs (num - n * den) <= den)%Z /\
  ((2 * Z.abs (num - n * den) = den)%Z -> Z.even n = true).

(** [r] is the float of the decimal of [n] millionths with the sign [s]:
    the float whose value is that decimal where there is one, and
    otherwise the quotient of [n] by [10^6] as IEEE 754 division of
    binary64 rounds it ([SFdiv] is the specification the standard library
    gives of that division). *)
Definition float_of_millionths (s : bool) (n : Z) (r : float) : Prop :=
  match n with
  | Z0 => r = if s then neg_zero else zero
  | Zpos p =>
      (exists (m' : positive) (e' : Z),
         Prim2SF r = S754_finite s m' e' /\
         fst (scaled m' e') = (n * snd (scaled m' e'))%Z) \/
      r = SF2Prim (SFdiv prec emax (S754_finite s p 0)
                     (S754_finite false 1000000 0))
  | Zneg _ => False
  end.

(** [r] is [x] rounded to six decimal places: the decimal with six
    places nearest to [x], half to even, read as a float; an infinity and
    a NaN are their own rounding. *)
Definition six_places (x r : float) : Prop :=
  match Prim2SF x with
  | S754_finite s m e =>
      exists n : Z,
        nearest_even (fst (scaled m e)) (snd (scaled m e)) n /\
        float_of_millionths s n r
  | _ => r = x
  end.

(** A source point holds the number [p] as its price: the point is an
    object whose ["price"] is something [float] turns into [p], and [p] is
    not a NaN. *)
Definition price_is (float_of_str : string -> option float)
  (item : value) (p : float) : Prop :=
  exists (d : dict) (v : value),
    item = VDict d /\ dict_get d "price" = Some v /\
    py_float float_of_str v = Ok p /\ is_nan p = false.

(** Reading the price of a source point raises [e]. *)
Definition price_error (float_of_str : string -> option float)
  (item : value) (e : exn) : Prop :=
  getitem item "price" = Raise e \/
  exists v : value,
    getitem item "price" = Ok v /\ py_float float_of_str v = Raise e.

(** A PricePoint of the data model and the dict that carries it. *)
Record PricePoint : Type := mk_point {
  point_api : string;
  point_price : float;
  point_timestamp : string
}.

Definition point_value (p : PricePoint) : value :=
  VDict [("api", VStr (point_api p));
         ("price", VFloat (point_price p));
         ("timestamp", VStr (point_timestamp p))].

(** A well-formed PricePoint: a positive price and a timestamp whose text
    ends in [Z]. *)
Definition well_formed (p : PricePoint) : Prop :=
  (0 <? point_price p)%float = true /\
  exists t : string, point_timestamp p = (t ++ "Z")%string.

(** The SubmissionRecord with the given fields. *)
Definition submission_record (median_price_usd : value) (sources : list value)
  (calculated_at code_or_logs : string) : dict :=
  [("median_price_usd", median_price_usd);
   ("sources", VList sources);
   ("calculation_method", VStr "median");
   ("calculated_at", VStr calculated_at);
   ("code_or_logs", VStr code_or_logs)].

(** [d[k] = v] on a dict. *)
Fixpoint dict_set (d : dict) (k : string) (v : value) : dict :=
  match d with
  | [] => [(k, v)]
  | (k', v') :: rest =>
      if k' =? k then (k, v) :: rest else (k', v') :: dict_set rest k v
  end.

(** The message of the quorum error. *)
Definition quorum_error (succeeded : nat) (min_sources : Z) : exn :=
  mk_exn RuntimeError
    [Lit "Only "; Fmt (VInt (Z.of_nat succeeded));
     Lit " source(s) succeeded. Minimum required: "; Fmt (VInt min_sources);
     Lit "."].

Section Names.

Variable repr : value -> string.

(** The api name of a source entry, when the entry is an object that
    has one. *)
Definition api_name_of (item : value) : option string :=
  match item with
  | VDict d => option_map (py_str repr) (dict_get d "api")
  | _ => None
  end.

(** Two entries of [items], at different places, have the api name [a]. *)
Definition shared_api (items : list value) (a : string) : Prop :=
  exists i j : nat,
    i < j /\
    option_map api_name_of (nth_error items i) = Some (Some a) /\
    option_map api_name_of (nth_error items j) = Some (Some a).

End Names.

(** An entry that passes every check of the validator but the one on
    duplicates. *)
Definition entry_valid (float_of_str : string -> option float)
  (repr : value -> string) (item : value) : Prop :=
  exists (d : dict) (api price timestamp : value) (p : float),
    item = VDict d /\
    dict_get d "api" = Some api /\
    dict_get d "price" = Some price /\
    dict_get d "timestamp" = Some timestamp /\
    py_float float_of_str price = Ok p /\
    (p <=? 0)%float = false /\
    endswith (py_str repr timestamp) "Z" = true.

(** The payload carries no error: the key is absent or what it holds is
    falsy (an empty list, [None]). *)
Definition no_error (d : dict) : Prop :=
  forall err : value, dict_get d "error" = Some err -> truthy err = false.


(** ** An interpreter for the examples

    The theorems hold for every [float_of_str] and [repr].  The closed
    examples evaluate the model with the two below, which agree with the
    interpreter on the texts and objects the examples hold. *)

Definition digit_of (c : ascii) : option Z :=
  let n := nat_of_ascii c in
  if ((48 <=? n) && (n <=? 57))%nat then Some (Z.of_nat (n - 48)) else None.

(** Reads digits with at most one point: the number without its point,
    and the count of digits after the point. *)
Fixpoint scan_decimal (s : string) (num : Z) (frac : option nat) (seen : bool)
  : option (Z * nat) :=
  match s with
  | EmptyString =>
      if seen then Some (num, match frac with Some k => k | None => 0 end)
      else None
  | String c rest =>
      if (c =? ".")%char then
        match frac with
        | None => scan_decimal rest num (Some 0) seen
        | Some _ => None
        end
      else
        match digit_of c with
        | Some d => scan_decimal rest (10 * num + d) (option_map S frac) true
        | None => None
        end
  end.

(** [float(s)] of an unsigned plain decimal numeral, the form the quote
    endpoints send.  A sign, an exponent, blanks, [inf] and [nan], which
    [float] reads too, are [None] here. *)
Definition float_of_decimal (s : string) : option float :=
  match scan_decimal s 0 None false with
  | Some (Zpos n, k) =>
      Some (float_of_ratio false n (Z.to_pos (10 ^ Z.of_nat k)))
  | Some (_, _) => Some 0%float
  | None => None
  end.

(** [repr] of [None] and of a [bool]; the empty text for any other
    object. *)
Definition repr_constant (v : value) : string :=
  match v with
  | VNone => "None"
  | VBool true => "True"
  | VBool false => "False"
  | _ => ""
  end.

(** ** Example data (the payloads of [test_oracle_challenge.py]) *)

Definition four_sources : list value :=
  [ point_value (mk_point "a" 1 "2026-02-22T00:00:00Z");
    point_value (mk_point "b" 3 "2026-02-22T00:00:01Z");
    point_value (mk_point "c" 2 "2026-02-22T00:00:02Z");
    point_value (mk_point "d" 100 "2026-02-22T00:00:03Z") ].

(** Three sources whose prices are no multiples of a power of two:
    the floats nearest to 2.6750005, 1.0000005 and 8.0000015. *)
Definition fine_sources : list value :=
  [ point_value (mk_point "a" 0x1.56666a98244e9p+1 "2026-02-22T00:00:00Z");
    point_value (mk_point "b" 0x1.000008637bd06p+0 "2026-02-22T00:00:01Z");
    point_value (mk_point "c" 0x1.000003254e6e2p+3 "2026-02-22T00:00:02Z") ].

Definition one_source : list value :=
  [ point_value (mk_point "a" 1 "2026-02-22T00:00:00Z") ].

Definition three_points : list PricePoint :=
  [ mk_point "coingecko" 1 "2026-02-22T00:00:00Z";
    mk_point "kraken" 1.5 "2026-02-22T00:00:01Z";
    mk_point "binance" 1.25 "2026-02-22T00:00:02Z" ].

Definition duplicate_sources : list value :=
  [ point_value (mk_point "coingecko" 1 "2026-02-22T00:00:00Z");
    point_value (mk_point "coingecko" 1.5 "2026-02-22T00:00:01Z");
    point_value (mk_point "binance" 1.25 "2026-02-22T00:00:02Z") ].

Definition duplicate_payload : dict :=
  submission_record (VFloat 1) duplicate_sources "2026-02-22T00:00:05Z" "logs".


Definition kraken_error_payload : value :=
  VDict [("error", VList [VStr "EQuery:Unknown asset pair"])].




(** A Kraken body whose last-close field is an empty array. *)
Definition kraken_empty_close : value :=
  VDict [("error", VList []);
         ("result", VDict [("NEARUSD", VDict [("c", VList [])])])].

(** A network in which every endpoint answers with a well-formed body,
    except Kraken, whose last-close array is empty. *)
Definition fetch_empty_close (link : string) : result (value * Z * Z) :=
  if link =? "https://api.coingecko.com/api/v3/simple/price?ids=near&vs_currencies=usd"
  then Ok (VDict [("near", VDict [("usd", VFloat 1.25)])], 200%Z, 21%Z)
  else if link =? "https://api.coinbase.com/v2/prices/NEAR-USD/spot"
  then Ok (VDict [("data", VDict [("amount", VStr "1.015")])], 200%Z, 27%Z)
  else if link =? "https://api.kraken.com/0/public/Ticker?pair=NEARUSD"
  then Ok (kraken_empty_close, 200%Z, 42%Z)
  else if link =? "https://min-api.cryptocompare.com/data/price?fsym=NEAR&tsyms=USD"
  then Ok (VDict [("USD", VFloat 1.125)], 200%Z, 14%Z)
  else Ok (VDict [("price", VStr "1.01800000")], 200%Z, 23%Z).

(** A network in which only the last endpoint answers with a price, and
    that price is negative. *)
Definition fetch_negative (link : string) : result (value * Z * Z) :=
  if link =? "https://api.binance.com/api/v3/ticker/price?symbol=NEARUSDT"
  then Ok (VDict [("price", VFloat (-1))], 200%Z, 15%Z)
  else raise TimeoutError [Lit "timed out"].

Definition example_clock (n : nat) : string := "2026-02-22T00:00:00".

(** A record that passes validation. *)
Definition valid_payload : dict :=
  submission_record (VFloat 1.25) (map point_value three_points)
    "2026-02-22T00:00:05Z" "logs".

(** A payload with one of the five required fields. *)
Definition sources_only_payload : dict := [("sources", VList [])].

(** A source point without a price, and one whose price is [None]. *)
Definition priceless_point : value :=
  VDict [("api", VStr "a"); ("timestamp", VStr "2026-02-22T00:00:00Z")].

Definition null_price_point : value :=
  VDict [("api", VStr "a"); ("price", VNone);
         ("timestamp", VStr "2026-02-22T00:00:00Z")].

(** ** Notions for the further properties *)

(** The checks of the validator that come before the loop over the
    entries pass: the five fields are there, the method is the text
    [median], and the sources are the list [items], long enough. *)
Definition top_level_ok (payload : dict) (min_sources : Z)
  (items : list value) : Prop :=
  (forall k : string, In k required_top_level -> In k (keys payload)) /\
  dict_get payload "calculation_method" = Some (VStr "median") /\
  dict_get payload "sources" = Some (VList items) /\
  (min_sources <= Z.of_nat (List.length items))%Z.

(** The three keys of a source entry, in the order the validator asks
    for them. *)
Definition entry_keys : list string := ["api"; "price"; "timestamp"].

Section Outcomes.

Variable fetch_json : string -> result (value * Z * Z).
Variable clock : nat -> string.

(** What one source comes to in [collect_prices]: the price its parser
    read from what its endpoint sent, past the sign check, or the exception
    that the fetch, the parser or the sign check raised. *)
Definition source_price (source : Source) : result float :=
  fetched <- fetch_json (url source);;
  price <- parser source (fst (fst fetched));;
  if (price <=? 0)%float then
    raise ValueError [Lit "Non-positive price: "; Fmt (VFloat price)]
  else Ok price.

Definition yields (source : Source) : bool :=
  match source_price source with
  | Ok _ => true
  | Raise _ => false
  end.

(** [pp] is the price point of one of the [sources]: its name, its price
    rounded to six places, a reading of the clock. *)
Definition success_of (sources : list Source) (pp : PricePoint) : Prop :=
  exists (source : Source) (n : nat) (p : float),
    In source sources /\ source_price source = Ok p /\
    pp = mk_point (name source) (round6 p) (utc_now_iso (clock n)).

(** [f] is the failure entry of one of the [sources]: its name and the
    text of an exception of a class of the [except] clause. *)
Definition failure_of (sources : list Source) (f : failure) : Prop :=
  exists (source : Source) (e : exn),
    In source sources /\ source_price source = Raise e /\
    isinstance e handled = true /\
    f = mk_failure (name source) (exn_msg e).

(** [pp] is the price point of [source]. *)
Definition point_of (pp : PricePoint) (source : Source) : Prop :=
  exists (n : nat) (p : float),
    source_price source = Ok p /\
    pp = mk_point (name source) (round6 p) (utc_now_iso (clock n)).

End Outcomes.

(** ** The run *)

Section Run.

Variable float_of_str : string -> option float.
Variable repr : value -> string.
Variable fetch_json : string -> result (value * Z * Z).
Variable clock : nat -> string.

(** [write_json(output_path, submission)]: the write of the output
    file, or what it raised. *)
Variable write_json : dict -> result unit.

(** [print(json.dumps(submission, ...))]: the record on the standard
    output, or what the rendering or the write raised. *)
Variable print_json : dict -> result unit.

(** The [try] block of [main], with the arguments [parse_args] returned
    and the wall clock [now] read by [build_submission]; the result is the
    submission written and printed.  The calls of the logger, which
    reports its own errors and raises none, are left out. *)
Definition run (now : string) (min_sources : Z) (code_or_logs : string)
  : result dict :=
  collected <- collect_prices fetch_json clock (SOURCES float_of_str);;
  submission <-
    build_submission float_of_str now (successes collected) code_or_logs
      min_sources;;
  _ <- validate_submission_payload float_of_str repr submission min_sources;;
  _ <- write_json submission;;
  _ <- print_json submission;;
  Ok submission.

(** The exit code of [main]: [except Exception] turns any exception of
    the [try] block into 1. *)
Definition main (now : string) (min_sources : Z) (code_or_logs : string)
  : result Z :=
  match run now min_sources code_or_logs with
  | Ok _ => Ok 0%Z
  | Raise exc => if isinstance exc [Exception] then Ok 1%Z else Raise exc
  end.

End Run.

(** ** Example data for the further properties *)

(** A network in which three endpoints answer with a price, Kraken
    answers with an error list and one endpoint times out. *)
Definition fetch_mixed (link : string) : result (value * Z * Z) :=
  if link =? "https://api.coingecko.com/api/v3/simple/price?ids=near&vs_currencies=usd"
  then Ok (VDict [("near", VDict [("usd", VFloat 1.25)])], 200%Z, 21%Z)
  else if link =? "https://api.coinbase.com/v2/prices/NEAR-USD/spot"
  then Ok (VDict [("data", VDict [("amount", VStr "1.125")])], 200%Z, 27%Z)
  else if link =? "https://api.kraken.com/0/public/Ticker?pair=NEARUSD"
  then Ok (kraken_error_payload, 200%Z, 40%Z)
  else if link =? "https://min-api.cryptocompare.com/data/price?fsym=NEAR&tsyms=USD"
  then raise TimeoutError [Lit "timed out"]
  else Ok (VDict [("price", VStr "1.37500000")], 200%Z, 23%Z).

(** What [collect_prices] returns over that network. *)
Definition mixed_out : collected :=
  mk_collected
    [ point_value (mk_point "coingecko" 1.25 "2026-02-22T00:00:00Z");
      point_value (mk_point "coinbase" 1.125 "2026-02-22T00:00:00Z");
      point_value (mk_point "binance" 1.375 "2026-02-22T00:00:00Z") ]
    [ mk_failure "kraken"
        [Lit "Kraken returned errors: ";
         Fmt (VList [VStr "EQuery:Unknown asset pair"])];
      mk_failure "cryptocompare" [Lit "timed out"] ]
    [ api_call_success "coingecko" 200 21 1.25
        "https://api.coingecko.com/api/v3/simple/price?ids=near&vs_currencies=usd";
      api_call_success "coinbase" 200 27 1.125
        "https://api.coinbase.com/v2/prices/NEAR-USD/spot";
      api_call_failure "kraken"
        (mk_exn ValueError
           [Lit "Kraken returned errors: ";
            Fmt (VList [VStr "EQuery:Unknown asset pair"])])
        "https://api.kraken.com/0/public/Ticker?pair=NEARUSD";
      api_call_failure "cryptocompare"
        (mk_exn TimeoutError [Lit "timed out"])
        "https://min-api.cryptocompare.com/data/price?fsym=NEAR&tsyms=USD";
      api_call_success "binance" 200 23 1.375
        "https://api.binance.com/api/v3/ticker/price?symbol=NEARUSDT" ].

(** A file system on which the write goes through. *)
Definition write_ok (submission : dict) : result unit := Ok tt.

(** A standard output that takes the record, and one that is closed. *)
Definition print_ok (submission : dict) : result unit := Ok tt.

Definition print_closed (submission : dict) : result unit :=
  raise OSError [Lit "Broken pipe"].

(** The Kraken source of the registry. *)
Definition kraken_source : Source :=
  mk_source "kraken" "https://api.kraken.com/0/public/Ticker?pair=NEARUSD"
    (parse_kraken float_of_decimal).

(** An int past the range of the floats, as a JSON body can hold one. *)
Definition huge_int : value := VInt (2 ^ 1024).

(** A Kraken result whose last-close field holds a text. *)
Definition kraken_text_close : dict :=
  [("error", VList []);
   ("result", VDict [("NEARUSD", VDict [("c", VStr "12.5")])])].

(** A record with the five fields and the given sources. *)
Definition record_of (items : list value) : dict :=
  submission_record (VFloat 1) items "2026-02-22T00:00:05Z" "logs".

Definition good_front : list value :=
  [ point_value (mk_point "coingecko" 1 "2026-02-22T00:00:00Z") ].

Definition good_back : list value :=
  [ point_value (mk_point "binance" 1.25 "2026-02-22T00:00:02Z") ].

(** Entries that fail one check each. *)
Definition zero_price_entry : dict :=
  [("api", VStr "kraken"); ("price", VFloat 0);
   ("timestamp", VStr "2026-02-22T00:00:01Z")].

Definition local_time_entry : dict :=
  [("api", VStr "kraken"); ("price", VFloat 1.5);
   ("timestamp", VStr "2026-02-22T00:00:01")].

Definition null_price_entry : dict :=
  [("api", VStr "kraken"); ("price", VNone);
   ("timestamp", VStr "2026-02-22T00:00:01Z")].

Definition priceless_entry : dict :=
  [("api", VStr "kraken"); ("timestamp", VStr "2026-02-22T00:00:01Z")].

Definition repeated_entry : dict :=
  [("api", VStr "coingecko"); ("price", VFloat 0);
   ("timestamp", VStr "2026-02-22T00:00:01")].

(** * Properties *)

(** ** The result monad *)

Lemma bind_Ok {A B : Type} (r : result A) (k : A -> result B) (b : B) :
  bind r k = Ok b -> exists a : A, r = Ok a /\ k a = Ok b.
Proof. destruct r as [a|e]; simpl; [eauto | discriminate]. Qed.

Lemma bind_Raise {A B : Type} (r : result A) (k : A -> result B) (e : exn) :
  bind r k = Raise e -> r = Raise e \/ exists a : A, r = Ok a /\ k a = Raise e.
Proof. destruct r as [a|e']; simpl; [eauto | intros [= ->]; auto]. Qed.

(** ** The order of the floats *)

Lemma Prim2SF_not_nan (x : float) : is_nan x = false -> Prim2SF x <> S754_nan.
Proof.
  intros H. unfold Prim2SF. rewrite H.
  destruct (is_zero x); [discriminate|].
  destruct (is_infinity x); [discriminate|].
  destruct (Z.frexp x) as [r e].
  destruct (shr_fexp _ _ _ _ _) as [s e'].
  destruct (shr_m s); discriminate.
Qed.

Lemma SFcompare_swap (x y : spec_float) (c : comparison) :
  SFcompare x y = Some c -> SFcompare y x = Some (CompOpp c).
Proof.
  destruct x as [sx|sx| |sx mx ex], y as [sy|sy| |sy my ey]; simpl;
    try discriminate;
    try (intros H; injection H as <-;
         repeat match goal with b : bool |- _ => destruct b end; reflexivity).
  intros H; injection H as <-. f_equal.
  rewrite (Z.compare_antisym ey ex).
  destruct sx, sy; simpl; try reflexivity;
    destruct (ey ?= ex)%Z eqn:E; simpl; try reflexivity;
    rewrite (Pos.compare_cont_antisym mx my Eq); simpl;
    try rewrite CompOpp_involutive; reflexivity.
Qed.

Lemma SFcompare_defined (x y : spec_float) :
  x <> S754_nan -> y <> S754_nan -> exists c, SFcompare x y = Some c.
Proof.
  intros Hx Hy.
  destruct x as [sx|sx| |sx mx ex], y as [sy|sy| |sy my ey]; simpl;
    try congruence; eexists; reflexivity.
Qed.

Lemma ltb_fle (x y : float) : (x <? y)%float = true -> fle x y.
Proof.
  unfold fle. rewrite ltb_spec, leb_spec. unfold SFltb, SFleb.
  destruct (SFcompare (Prim2SF x) (Prim2SF y)) as [[ | | ]|]; congruence.
Qed.

Lemma not_ltb_fle (x y : float) :
  is_nan x = false -> is_nan y = false -> (y <? x)%float = false -> fle x y.
Proof.
  intros Hx Hy. unfold fle. rewrite ltb_spec, leb_spec. unfold SFltb, SFleb.
  destruct (SFcompare_defined (Prim2SF y) (Prim2SF x)) as [c Hc];
    try (apply Prim2SF_not_nan; assumption).
  rewrite Hc, (SFcompare_swap _ _ _ Hc).
  destruct c; simpl; congruence.
Qed.

Lemma positive_not_leb_zero (p : float) :
  (0 <? p)%float = true -> (p <=? 0)%float = false.
Proof.
  rewrite ltb_spec, leb_spec. unfold SFltb, SFleb.
  destruct (SFcompare (Prim2SF 0) (Prim2SF p)) as [c|] eqn:Hc; [|discriminate].
  rewrite (SFcompare_swap _ _ _ Hc). destruct c; simpl; congruence.
Qed.

(** ** [sorted] *)

Section SortedFacts.
Context {A : Type} (lt : A -> A -> bool).

Lemma insert_sorted_perm (x : A) (l : list A) :
  Permutation (insert_sorted lt x l) (x :: l).
Proof.
  induction l as [|y l IH]; simpl; [reflexivity|].
  destruct (lt y x); [|reflexivity].
  rewrite IH. apply perm_swap.
Qed.

Lemma sorted_perm (l : list A) : Permutation (sorted lt l) l.
Proof.
  induction l as [|x l IH]; simpl; [constructor|].
  rewrite insert_sorted_perm. now constructor.
Qed.

Lemma sorted_length (l : list A) : List.length (sorted lt l) = List.length l.
Proof. apply Permutation_length, sorted_perm. Qed.

Lemma sorted_In (l : list A) (x : A) : In x (sorted lt l) <-> In x l.
Proof.
  split; apply Permutation_in; [|symmetry]; apply sorted_perm.
Qed.

Variables (le : A -> A -> Prop) (good : A -> Prop).
Hypothesis lt_le : forall x y, lt x y = true -> le x y.
Hypothesis not_lt_le : forall x y, good x -> good y -> lt y x = false -> le x y.

Lemma insert_sorted_hd (a x : A) (l : list A) :
  le a x -> HdRel le a l -> HdRel le a (insert_sorted lt x l).
Proof.
  intros Hax Hl. destruct l as [|y l]; simpl; [now constructor|].
  destruct (lt y x); constructor; [now inversion Hl | assumption].
Qed.

Lemma insert_sorted_Sorted (x : A) (l : list A) :
  good x -> Forall good l -> Sorted le l -> Sorted le (insert_sorted lt x l).
Proof.
  intros Hx Hg Hs. induction l as [|y l IH]; simpl; [repeat constructor|].
  inversion Hg; subst. inversion Hs; subst.
  destruct (lt y x) eqn:E.
  - constructor; [now apply IH|]. apply insert_sorted_hd; auto.
  - constructor; [assumption|]. constructor. now apply not_lt_le.
Qed.

Lemma sorted_Sorted (l : list A) : Forall good l -> Sorted le (sorted lt l).
Proof.
  induction 1 as [|x l Hx Hl IH]; simpl; [constructor|].
  apply insert_sorted_Sorted; auto.
  eapply Permutation_Forall; [symmetry; apply sorted_perm | assumption].
Qed.

End SortedFacts.

(** ** [statistics.median] *)

Lemma list_index_Ok (data : list float) (i : nat) :
  i < List.length data -> exists x, nth_error data i = Some x /\ list_index data i = Ok x.
Proof.
  intros H. unfold list_index.
  destruct (nth_error data i) as [x|] eqn:E; [eauto|].
  apply nth_error_None in E. lia.
Qed.

Lemma odd_mod2 (n : nat) : Nat.odd n = (n mod 2 =? 1)%nat.
Proof.
  rewrite <- (Nat.bit0_mod n), Nat.bit0_odd. destruct (Nat.odd n); reflexivity.
Qed.

(** On data that is not empty [median] returns, and what it returns is
    read from the sorted data at the middle. *)
Lemma median_middle (data : list float) :
  data <> [] ->
  exists m : float,
    median data = Ok m /\
    let s := sorted PrimFloat.ltb data in
    if Nat.odd (List.length data) then nth_error s (List.length data / 2) = Some m
    else
      exists a b : float,
        nth_error s (List.length data / 2 - 1) = Some a /\
        nth_error s (List.length data / 2) = Some b /\
        m = ((a + b) / 2)%float.
Proof.
  intros Hne. unfold median. cbv zeta.
  rewrite (sorted_length PrimFloat.ltb data).
  set (n := List.length data).
  assert (Hn : 0 < n) by (subst n; destruct data; simpl; [congruence | lia]).
  destruct (n =? 0)%nat eqn:E0; [apply Nat.eqb_eq in E0; lia|].
  rewrite odd_mod2.
  assert (Hhalf : n / 2 < n) by (apply Nat.div_lt; lia).
  destruct (n mod 2 =? 1)%nat eqn:E1.
  - destruct (list_index_Ok (sorted PrimFloat.ltb data) (n / 2)) as [x [Hx Hi]].
    { rewrite sorted_length. exact Hhalf. }
    exists x. split; assumption.
  - destruct (list_index_Ok (sorted PrimFloat.ltb data) (n / 2 - 1)) as [a [Ha Hia]].
    { rewrite sorted_length. fold n. lia. }
    destruct (list_index_Ok (sorted PrimFloat.ltb data) (n / 2)) as [b [Hb Hib]].
    { rewrite sorted_length. exact Hhalf. }
    exists ((a + b) / 2)%float. rewrite Hia, Hib. simpl.
    split; [reflexivity|]. exists a, b. auto.
Qed.

Lemma median_Ok (data : list float) :
  data <> [] -> exists m : float, median data = Ok m.
Proof.
  intros H. destruct (median_middle data H) as [m [Hm _]]. eauto.
Qed.

Lemma median_spec (data : list float) :
  data <> [] -> Forall (fun p => is_nan p = false) data ->
  exists m : float, median data = Ok m /\ spec_median data m.
Proof.
  intros Hne Hnan. destruct (median_middle data Hne) as [m [Hm Hmid]].
  exists m. split; [exact Hm|].
  exists (sorted PrimFloat.ltb data). split; [apply sorted_perm|]. split.
  - apply (sorted_Sorted PrimFloat.ltb fle (fun p => is_nan p = false)).
    + apply ltb_fle.
    + intros x y Hx Hy. apply not_ltb_fle; assumption.
    + exact Hnan.
  - exact Hmid.
Qed.

(** ** [round] to six places *)

Lemma round_half_even_nearest (a d : Z) :
  (0 <= a)%Z -> (0 < d)%Z ->
  (0 <= round_half_even a d)%Z /\ nearest_even a d (round_half_even a d).
Proof.
  intros Ha Hd. unfold round_half_even, nearest_even.
  pose proof (Z.div_mod a d ltac:(lia)) as Hdm.
  pose proof (Z.mod_pos_bound a d Hd) as Hr.
  pose proof (Z.div_pos a d Ha Hd) as Hq.
  set (q := (a / d)%Z) in *. set (r := (a mod d)%Z) in *.
  destruct (Z.compare_spec (2 * r) d) as [E | E | E].
  - destruct (Z.even q) eqn:Ev.
    + split; [lia|]. split; [|auto].
      replace (a - q * d)%Z with r by lia. lia.
    + split; [lia|]. split.
      * replace (a - (q + 1) * d)%Z with (r - d)%Z by lia. lia.
      * intros _. rewrite Z.even_add, Ev. reflexivity.
  - split; [lia|]. split.
    + replace (a - q * d)%Z with r by lia. lia.
    + replace (a - q * d)%Z with r by lia. lia.
  - split; [lia|]. split.
    + replace (a - (q + 1) * d)%Z with (r - d)%Z by lia. lia.
    + replace (a - (q + 1) * d)%Z with (r - d)%Z by lia. lia.
Qed.

(** The nearest integer, half to even, is one integer. *)
Lemma nearest_even_unique (num den n n' : Z) :
  (0 < den)%Z ->
  nearest_even num den n -> nearest_even num den n' -> n = n'.
Proof.
  intros Hden [Hn Hen] [Hn' Hen'].
  assert (Hclose : (Z.abs (n - n') <= 1)%Z) by nia.
  destruct (Z.eq_dec n n') as [|Hne]; [assumption|]. exfalso.
  assert (Htie : (2 * Z.abs (num - n * den) = den /\
                  2 * Z.abs (num - n' * den) = den)%Z) by nia.
  destruct Htie as [T T'].
  specialize (Hen T). specialize (Hen' T').
  assert (Hsucc : n' = (n + 1)%Z \/ n = (n' + 1)%Z) by lia.
  destruct Hsucc as [-> | ->].
  - rewrite Z.even_add, Hen in Hen'. discriminate.
  - rewrite Z.even_add, Hen' in Hen. discriminate.
Qed.

(** [round6] rounds to six decimal places. *)
Lemma round6_six_places (x : float) : six_places x (round6 x).
Proof.
  unfold six_places, round6.
  destruct (Prim2SF x) as [s0|s0| |s m e] eqn:Hx; try reflexivity.
  unfold scaled. destruct (Z.leb_spec 0 e) as [He | He]; cbn [fst snd].
  - exists (Zpos m * 2 ^ e * 1000000)%Z. split.
    + split; [|intros H]; lia.
    + assert (Hpos : (0 < Zpos m * 2 ^ e * 1000000)%Z)
        by (pose proof (Z.pow_pos_nonneg 2 e ltac:(lia) He); nia).
      destruct (Zpos m * 2 ^ e * 1000000)%Z as [|p|p] eqn:Hn; try lia.
      left. exists m, e. split; [exact Hx|].
      unfold scaled. destruct (Z.leb_spec 0 e); cbn [fst snd]; lia.
  - assert (Hd : (0 < 2 ^ (- e))%Z) by (apply Z.pow_pos_nonneg; lia).
    destruct (round_half_even_nearest (Zpos m * 1000000) (2 ^ (- e)))
      as [Hnonneg Hnear]; [lia | exact Hd |].
    exists (round_half_even (Zpos m * 1000000) (2 ^ (- e))).
    split; [exact Hnear|].
    destruct (round_half_even (Zpos m * 1000000) (2 ^ (- e))) as [|p|p];
      [reflexivity | right; reflexivity | lia].
Qed.

(** ** [build_submission] *)

Section Aggregator.

Variable float_of_str : string -> option float.

Lemma prices_of_numeric (pts : list value) (ps : list float) :
  Forall2 (price_is float_of_str) pts ps ->
  prices_of float_of_str pts = Ok ps /\ Forall (fun p => is_nan p = false) ps.
Proof.
  induction 1 as [|item p pts ps (d & v & -> & Hget & Hfloat & Hnan) _ [IH1 IH2]];
    simpl; [split; [reflexivity | constructor]|].
  rewrite Hget. simpl. rewrite Hfloat. simpl. rewrite IH1. simpl.
  split; [reflexivity | now constructor].
Qed.

Lemma prices_of_length (pts : list value) (ps : list float) :
  prices_of float_of_str pts = Ok ps -> List.length ps = List.length pts.
Proof.
  revert ps. induction pts as [|item pts IH]; simpl; intros ps H.
  - injection H as <-. reflexivity.
  - apply bind_Ok in H as (v & _ & H). apply bind_Ok in H as (p & _ & H).
    apply bind_Ok in H as (ps' & Hps & H). injection H as <-.
    simpl. f_equal. now apply IH.
Qed.

Lemma prices_of_Raise (pts : list value) (e : exn) :
  prices_of float_of_str pts = Raise e ->
  exists item : value, In item pts /\ price_error float_of_str item e.
Proof.
  induction pts as [|item pts IH]; simpl; [discriminate|]. intros H.
  apply bind_Raise in H as [H | (v & Hv & H)].
  { exists item. split; [now left | now left]. }
  apply bind_Raise in H as [H | (p & Hp & H)].
  { exists item. split; [now left | right; eauto]. }
  apply bind_Raise in H as [H | (ps & _ & H)]; [|discriminate].
  destruct (IH H) as (it & Hin & Herr). exists it. split; [now right | exact Herr].
Qed.

Lemma getitem_Raise_class (v : value) (k : string) (e : exn) :
  getitem v k = Raise e -> exn_cls e = KeyError \/ exn_cls e = TypeError.
Proof.
  destruct v; simpl; try (intros [= <-]; auto).
  destruct (dict_get entries k); [discriminate | intros [= <-]; auto].
Qed.

Lemma float_of_int_Raise_class (z : Z) (e : exn) :
  float_of_int z = Raise e -> exn_cls e = OverflowError.
Proof.
  unfold float_of_int.
  destruct (binary_normalize prec emax z 0 false); try discriminate.
  now intros [= <-].
Qed.

Lemma py_float_Raise_class (v : value) (e : exn) :
  py_float float_of_str v = Raise e ->
  exn_cls e = TypeError \/ exn_cls e = ValueError \/ exn_cls e = OverflowError.
Proof.
  destruct v; simpl; try discriminate; try (intros [= <-]; auto).
  - intros H. apply float_of_int_Raise_class in H. auto.
  - destruct (float_of_str s); [discriminate | intros [= <-]; auto].
Qed.

Lemma price_error_class (item : value) (e : exn) :
  price_error float_of_str item e ->
  In (exn_cls e) [KeyError; TypeError; ValueError; OverflowError].
Proof.
  intros [H | (v & _ & H)].
  - apply getitem_Raise_class in H as [-> | ->]; simpl; auto.
  - apply py_float_Raise_class in H as [-> | [-> | ->]]; simpl; auto.
Qed.

(** When the quorum is met and every price converts, the record is built
    from the median of the prices. *)
Lemma build_submission_Ok (clock : string) (pts : list value) (ps : list float)
  (code : string) (min_sources : Z) :
  pts <> [] ->
  (min_sources <= Z.of_nat (List.length pts))%Z ->
  prices_of float_of_str pts = Ok ps ->
  exists m : float,
    median ps = Ok m /\
    build_submission float_of_str clock pts code min_sources =
      Ok (submission_record (VFloat (round6 m)) pts (utc_now_iso clock) code).
Proof.
  intros Hne Hmin Hps. unfold build_submission.
  destruct (Z.ltb_spec (Z.of_nat (List.length pts)) min_sources) as [Hlt|_]; [lia|].
  rewrite Hps. simpl.
  destruct (median_Ok ps) as [m Hm].
  { intros ->. apply prices_of_length in Hps. destruct pts; [congruence | discriminate]. }
  exists m. rewrite Hm. simpl. split; reflexivity.
Qed.

(** C1. For a list of source points that is not empty, meets the quorum
    and holds numeric prices, [build_submission] returns the record whose
    [median_price_usd] is the statistical median of the prices (the middle
    value of the prices in order for an odd count, the average of the two
    middle values for an even count) rounded to six decimal places, and
    whose [calculation_method] is ["median"]. *)
Theorem build_submission_median (clock : string) (pts : list value)
  (ps : list float) (code : string) (min_sources : Z) :
  pts <> [] ->
  (min_sources <= Z.of_nat (List.length pts))%Z ->
  Forall2 (price_is float_of_str) pts ps ->
  exists m r : float,
    spec_median ps m /\
    six_places m r /\
    build_submission float_of_str clock pts code min_sources =
      Ok [("median_price_usd", VFloat r);
          ("sources", VList pts);
          ("calculation_method", VStr "median");
          ("calculated_at", VStr (utc_now_iso clock));
          ("code_or_logs", VStr code)].
Proof.
  intros Hne Hmin Hnum.
  destruct (prices_of_numeric pts ps Hnum) as [Hps Hnan].
  destruct (build_submission_Ok clock pts ps code min_sources Hne Hmin Hps)
    as (m & Hm & Hbuild).
  destruct (median_spec ps) as (m' & Hm' & Hspec); [|exact Hnan|].
  { intros ->. apply prices_of_length in Hps. destruct pts; [congruence | discriminate]. }
  rewrite Hm in Hm'. injection Hm' as <-.
  exists m, (round6 m). split; [exact Hspec|].
  split; [apply round6_six_places | exact Hbuild].
Qed.

(** C2. With fewer source points than [min_sources], [build_submission]
    raises the quorum error and builds no record. *)
Theorem build_submission_quorum (clock : string) (pts : list value)
  (code : string) (min_sources : Z) :
  (1 <= min_sources)%Z ->
  (Z.of_nat (List.length pts) < min_sources)%Z ->
  build_submission float_of_str clock pts code min_sources =
    Raise (quorum_error (List.length pts) min_sources).
Proof.
  intros _ Hlt. unfold build_submission.
  destruct (Z.ltb_spec (Z.of_nat (List.length pts)) min_sources); [reflexivity | lia].
Qed.

(** C10, as amended.  With [min_sources >= 1]: when the quorum check
    passes, the prices handed to [median] are not empty and its
    empty-data error cannot occur; [build_submission] fails only with the
    quorum error or with the error of reading the price of a source point
    (a [KeyError], [TypeError], [ValueError] or [OverflowError]), and when
    every point holds a price that converts it fails only with the quorum
    error. *)
Theorem build_submission_failures (clock : string) (pts : list value)
  (code : string) (min_sources : Z) :
  (1 <= min_sources)%Z ->
  (forall e : exn,
     build_submission float_of_str clock pts code min_sources = Raise e ->
     e = quorum_error (List.length pts) min_sources \/
     (exn_cls e <> StatisticsError /\
      exists item : value, In item pts /\ price_error float_of_str item e)) /\
  (forall ps : list float,
     prices_of float_of_str pts = Ok ps ->
     (min_sources <= Z.of_nat (List.length pts))%Z ->
     ps <> [] /\
     exists record : dict,
       build_submission float_of_str clock pts code min_sources = Ok record) /\
  (forall ps : list float,
     prices_of float_of_str pts = Ok ps ->
     forall e : exn,
       build_submission float_of_str clock pts code min_sources = Raise e ->
       e = quorum_error (List.length pts) min_sources).
Proof.
  intros Hmin.
  assert (Hpass : forall ps,
             prices_of float_of_str pts = Ok ps ->
             (min_sources <= Z.of_nat (List.length pts))%Z ->
             ps <> [] /\
             exists record,
               build_submission float_of_str clock pts code min_sources = Ok record).
  { intros ps Hps Hq.
    assert (Hne : pts <> []) by (intros ->; simpl in Hq; lia).
    split.
    - intros ->. apply prices_of_length in Hps. destruct pts; [congruence | discriminate].
    - destruct (build_submission_Ok clock pts ps code min_sources Hne Hq Hps)
        as (m & _ & Hb). eauto. }
  assert (Hfail : forall e,
             build_submission float_of_str clock pts code min_sources = Raise e ->
             e = quorum_error (List.length pts) min_sources \/
             ((min_sources <= Z.of_nat (List.length pts))%Z /\
              prices_of float_of_str pts = Raise e)).
  { intros e. unfold build_submission.
    destruct (Z.ltb_spec (Z.of_nat (List.length pts)) min_sources) as [Hlt|Hge].
    - intros [= <-]. now left.
    - intros H. right. split; [exact Hge|].
      destruct (prices_of float_of_str pts) as [ps|e'] eqn:Hps.
      + destruct (Hpass ps eq_refl Hge) as [_ [record Hrec]].
        unfold build_submission in Hrec.
        destruct (Z.ltb_spec (Z.of_nat (List.length pts)) min_sources); [lia|].
        rewrite Hps in Hrec. rewrite Hrec in H. discriminate.
      + simpl in H. injection H as <-. reflexivity. }
  split; [|split].
  - intros e He. destruct (Hfail e He) as [Hq | [_ Hp]]; [now left | right].
    destruct (prices_of_Raise pts e Hp) as (item & Hin & Herr).
    split; [|eauto].
    apply price_error_class in Herr. intros Hc. rewrite Hc in Herr.
    simpl in Herr. intuition discriminate.
  - exact Hpass.
  - intros ps Hps e He. destruct (Hfail e He) as [Hq | [_ Hp]]; [exact Hq|].
    rewrite Hps in Hp. discriminate.
Qed.

End Aggregator.

(** ** [validate_submission_payload] *)

Lemma substring_tail (t : string) :
  substring (String.length t) 1 (t ++ "Z") = "Z".
Proof. induction t as [|c t IH]; simpl; [reflexivity | exact IH]. Qed.

Lemma endswith_Z (t : string) : endswith (t ++ "Z") "Z" = true.
Proof.
  unfold endswith.
  replace (String.length (t ++ "Z")) with (S (String.length t))
    by (induction t as [|c t IH]; simpl; [reflexivity | now rewrite <- IH]).
  simpl. rewrite Nat.sub_0_r, substring_tail. reflexivity.
Qed.

Lemma dict_has_In (d : dict) (k : string) :
  dict_has d k = true <-> In k (keys d).
Proof.
  unfold dict_has. induction d as [|[k' v] d IH]; simpl.
  - split; [discriminate | tauto].
  - destruct (String.eqb_spec k' k) as [->|Hne].
    + split; auto.
    + rewrite IH. split; [auto | intros [H|H]; [congruence | exact H]].
Qed.

Lemma dict_set_keys (d : dict) (k : string) (v : value) :
  dict_has d k = true -> keys (dict_set d k v) = keys d.
Proof.
  unfold dict_has. induction d as [|[k' v'] d IH]; simpl; [discriminate|].
  destruct (String.eqb_spec k' k) as [->|Hne]; simpl; [reflexivity|].
  intros H. f_equal. now apply IH.
Qed.

Lemma dict_set_other (d : dict) (k k' : string) (v : value) :
  k <> k' -> dict_get (dict_set d k v) k' = dict_get d k'.
Proof.
  intros Hne. induction d as [|[k0 v0] d IH]; simpl.
  - destruct (String.eqb_spec k k'); [contradiction | reflexivity].
  - destruct (String.eqb_spec k0 k) as [->|Hk]; simpl.
    + destruct (String.eqb_spec k k'); [contradiction | reflexivity].
    + now rewrite IH.
Qed.

Section Validator.

Variable float_of_str : string -> option float.
Variable repr : value -> string.

Local Abbreviation validate := (validate_submission_payload float_of_str repr).
Local Abbreviation entries_ok := (validate_entries float_of_str repr).
Local Abbreviation entry_ok := (validate_entry float_of_str repr).

(** *** Accepted entries *)

Lemma validate_entry_point (seen : set string) (p : PricePoint) :
  well_formed p -> ~ In (point_api p) seen ->
  entry_ok seen (point_value p) = Ok (set_add string_dec (point_api p) seen).
Proof.
  intros [Hpos [t Ht]] Hnew. unfold validate_entry, point_value. simpl.
  rewrite (set_mem_complete2 string_dec _ _ Hnew).
  rewrite (positive_not_leb_zero _ Hpos), Ht, endswith_Z. reflexivity.
Qed.

Lemma validate_entries_points (pps : list PricePoint) :
  Forall well_formed pps -> NoDup (map point_api pps) ->
  forall seen : set string,
    (forall a, In a seen -> ~ In a (map point_api pps)) ->
    entries_ok seen (map point_value pps) = Ok tt.
Proof.
  induction 1 as [|p pps Hp _ IH]; intros Hnd seen Hseen; [reflexivity|].
  cbn [map validate_entries] in *.
  inversion Hnd as [|? ? Hnotin Hnd']; subst.
  rewrite validate_entry_point; [cbn [bind] | exact Hp |].
  - apply IH; [exact Hnd'|]. intros a Ha Hin.
    apply set_add_iff in Ha as [-> | Ha]; [contradiction|].
    apply (Hseen a Ha). now right.
  - intros Hin. apply (Hseen _ Hin). now left.
Qed.

(** A record of well-formed points with distinct names passes, whatever
    its [median_price_usd] holds. *)
Lemma validate_record (median_price : value) (pps : list PricePoint)
  (calculated_at code : string) (min_sources : Z) :
  (min_sources <= Z.of_nat (List.length pps))%Z ->
  NoDup (map point_api pps) -> Forall well_formed pps ->
  validate
    (submission_record median_price (map point_value pps) calculated_at code)
    min_sources = Ok tt.
Proof.
  intros Hmin Hnd Hwf. unfold validate_submission_payload. simpl.
  rewrite length_map.
  destruct (Z.ltb_spec (Z.of_nat (List.length pps)) min_sources); [lia|].
  apply validate_entries_points; auto.
Qed.

(** *** What an accepted entry tells *)

Lemma validate_entry_Ok (seen seen' : set string) (item : value) :
  entry_ok seen item = Ok seen' ->
  exists a : string,
    api_name_of repr item = Some a /\ ~ In a seen /\
    seen' = set_add string_dec a seen.
Proof.
  unfold validate_entry. destruct item as [| | | | | |d]; try discriminate.
  destruct (first_missing d _); [discriminate|].
  intros H. apply bind_Ok in H as (api & Hapi & H).
  simpl in Hapi. destruct (dict_get d "api") as [api'|] eqn:Hget; [|discriminate].
  injection Hapi as ->.
  destruct (set_mem string_dec (py_str repr api) seen) eqn:Hmem; [discriminate|].
  apply bind_Ok in H as (price & _ & H). apply bind_Ok in H as (p & _ & H).
  destruct (p <=? 0)%float; [discriminate|].
  apply bind_Ok in H as (ts & _ & H).
  destruct (endswith (py_str repr ts) "Z"); [|discriminate].
  injection H as <-. exists (py_str repr api). simpl. rewrite Hget. simpl.
  split; [reflexivity|]. split; [|reflexivity].
  now apply (set_mem_complete1 string_dec).
Qed.

Lemma validate_entries_Ok (items : list value) :
  forall seen : set string,
    entries_ok seen items = Ok tt ->
    exists names : list string,
      Forall2 (fun item a => api_name_of repr item = Some a) items names /\
      NoDup names /\ forall a, In a names -> ~ In a seen.
Proof.
  induction items as [|item items IH]; simpl; intros seen H.
  - exists []. repeat split; [constructor | constructor | intros a []].
  - apply bind_Ok in H as (seen' & Hentry & Hrest).
    apply validate_entry_Ok in Hentry as (a & Ha & Hnew & ->).
    destruct (IH _ Hrest) as (names & Hnames & Hnd & Hdisj).
    exists (a :: names). split; [now constructor|]. split.
    + constructor; [|exact Hnd]. intros Hin.
      apply (Hdisj a Hin). apply set_add_iff. now left.
    + intros b [<-|Hb]; [exact Hnew|]. intros Hin.
      apply (Hdisj b Hb). apply set_add_iff. now right.
Qed.

Lemma names_nth (items : list value) (names : list string) :
  Forall2 (fun item a => api_name_of repr item = Some a) items names ->
  forall (i : nat) (a : string),
    option_map (api_name_of repr) (nth_error items i) = Some (Some a) ->
    nth_error names i = Some a.
Proof.
  induction 1 as [|item b items names Hb _ IH]; intros [|i] a; simpl;
    try discriminate.
  - intros [= H]. congruence.
  - apply IH.
Qed.

Lemma distinct_names_not_shared (items : list value) (names : list string) :
  Forall2 (fun item a => api_name_of repr item = Some a) items names ->
  NoDup names -> forall a : string, ~ shared_api repr items a.
Proof.
  intros Hnames Hnd a (i & j & Hlt & Hi & Hj).
  apply (names_nth _ _ Hnames) in Hi, Hj.
  assert (i = j); [|lia].
  apply (proj1 (NoDup_nth_error names) Hnd).
  - apply nth_error_Some. congruence.
  - congruence.
Qed.

Lemma validate_Ok_entries (payload : dict) (min_sources : Z) :
  validate payload min_sources = Ok tt ->
  exists items : list value,
    dict_get payload "sources" = Some (VList items) /\
    (min_sources <= Z.of_nat (List.length items))%Z /\
    entries_ok (empty_set string) items = Ok tt.
Proof.
  unfold validate_submission_payload.
  destruct (set_diff string_dec required_top_level (keys payload));
    [|discriminate].
  intros H. apply bind_Ok in H as (method & _ & H).
  destruct (differs_from_str method "median"); [discriminate|].
  apply bind_Ok in H as (sources & Hsrc & H).
  simpl in Hsrc. destruct (dict_get payload "sources") as [v|]; [|discriminate].
  injection Hsrc as ->.
  destruct sources as [| | | | |items|]; try discriminate.
  destruct (Z.ltb_spec (Z.of_nat (List.length items)) min_sources);
    [discriminate|].
  exists items. auto.
Qed.

Lemma prices_of_points (pps : list PricePoint) :
  prices_of float_of_str (map point_value pps) = Ok (map point_price pps).
Proof.
  induction pps as [|p pps IH]; [reflexivity|].
  cbn [map prices_of]. unfold point_value at 1. simpl. rewrite IH. reflexivity.
Qed.

(** C3. Round trip: the record [build_submission] returns for at least
    [min_sources] well-formed price points with distinct source names
    (positive prices, timestamps ending in [Z]) holds these points as its
    sources and passes [validate_submission_payload] with the same
    [min_sources]. *)
Theorem build_then_validate (clock : string) (pps : list PricePoint)
  (code : string) (min_sources : Z) :
  (1 <= min_sources)%Z ->
  (min_sources <= Z.of_nat (List.length pps))%Z ->
  NoDup (map point_api pps) ->
  Forall well_formed pps ->
  exists record : dict,
    build_submission float_of_str clock (map point_value pps) code min_sources
      = Ok record /\
    dict_get record "sources" = Some (VList (map point_value pps)) /\
    validate record min_sources = Ok tt.
Proof.
  intros Hone Hmin Hnd Hwf.
  destruct (build_submission_Ok float_of_str clock (map point_value pps)
              (map point_price pps) code min_sources) as (m & _ & Hbuild).
  - destruct pps; [simpl in Hmin; lia | discriminate].
  - now rewrite length_map.
  - apply prices_of_points.
  - eexists. split; [exact Hbuild|]. split; [reflexivity|].
    now apply validate_record.
Qed.

(** C7. A payload that lacks one or more of the five required top-level
    fields is refused with an error that lists every field it lacks. *)
Theorem validate_lists_missing (payload : dict) (min_sources : Z) :
  (exists k : string, In k required_top_level /\ ~ In k (keys payload)) ->
  exists listed : list string,
    validate payload min_sources =
      raise ValueError
        [Lit "Submission missing required top-level fields: ";
         Fmt (VList (map VStr listed))] /\
    forall k : string,
      In k listed <-> In k required_top_level /\ ~ In k (keys payload).
Proof.
  intros (k & Hreq & Hmiss). unfold validate_submission_payload.
  pose proof (set_diff_iff string_dec) as Hdiff.
  destruct (set_diff string_dec required_top_level (keys payload))
    as [|x missing] eqn:E.
  - exfalso.
    assert (Hin : In k (set_diff string_dec required_top_level (keys payload)))
      by (apply Hdiff; split; assumption).
    rewrite E in Hin. contradiction.
  - exists (sorted String.ltb (x :: missing)). split; [reflexivity|].
    intros k'. rewrite sorted_In, <- E. apply Hdiff.
Qed.

(** *** Entries that only a duplicate can fail *)

Lemma validate_entry_valid (seen : set string) (item : value) :
  entry_valid float_of_str repr item ->
  exists a : string,
    api_name_of repr item = Some a /\
    entry_ok seen item =
      if set_mem string_dec a seen then
        raise ValueError [Lit "Duplicate API source found: "; Lit a]
      else Ok (set_add string_dec a seen).
Proof.
  intros (d & api & price & ts & p & -> & Ha & Hp & Ht & Hf & Hle & Hend).
  exists (py_str repr api). split.
  - unfold api_name_of. rewrite Ha. reflexivity.
  - unfold validate_entry, first_missing, dict_has, getitem.
    rewrite Ha, Hp, Ht. cbn [bind].
    destruct (set_mem string_dec (py_str repr api) seen); [reflexivity|].
    rewrite Hf. cbn [bind]. rewrite Hle, Hend. reflexivity.
Qed.

Lemma validate_entries_valid (items : list value) :
  Forall (entry_valid float_of_str repr) items ->
  forall seen : set string,
    entries_ok seen items = Ok tt \/
    exists (a : string) (j : nat),
      entries_ok seen items =
        raise ValueError [Lit "Duplicate API source found: "; Lit a] /\
      option_map (api_name_of repr) (nth_error items j) = Some (Some a) /\
      (In a seen \/
       exists i : nat,
         i < j /\
         option_map (api_name_of repr) (nth_error items i) = Some (Some a)).
Proof.
  induction 1 as [|item items Hitem _ IH]; intros seen; [now left|].
  cbn [validate_entries].
  destruct (validate_entry_valid seen item Hitem) as (a & Hname & ->).
  destruct (set_mem string_dec a seen) eqn:Hmem.
  - right. exists a, 0. simpl. rewrite Hname.
    split; [reflexivity|]. split; [reflexivity|]. left.
    now apply (set_mem_correct1 string_dec).
  - cbn [bind].
    destruct (IH (set_add string_dec a seen)) as [Hok | (b & j & -> & Hj & Hb)];
      [now left|].
    right. exists b, (S j). split; [reflexivity|]. split; [exact Hj|].
    destruct Hb as [Hin | (i & Hlt & Hi)].
    + apply set_add_iff in Hin as [-> | Hin]; [|now left].
      right. exists 0. simpl. rewrite Hname. split; [lia | reflexivity].
    + right. exists (S i). split; [lia | exact Hi].
Qed.

(** C8. A record in which two source entries share an api name is never
    accepted; when all its other fields are valid, the error names an api
    that two entries share; hence an accepted record has pairwise distinct
    api names. *)
Theorem validate_rejects_shared_api (payload : dict) (min_sources : Z)
  (items : list value) :
  dict_get payload "sources" = Some (VList items) ->
  (forall a : string,
     shared_api repr items a ->
     exists e : exn, validate payload min_sources = Raise e) /\
  (forall a : string,
     shared_api repr items a ->
     (forall k : string, In k required_top_level -> In k (keys payload)) ->
     dict_get payload "calculation_method" = Some (VStr "median") ->
     (min_sources <= Z.of_nat (List.length items))%Z ->
     Forall (entry_valid float_of_str repr) items ->
     exists a' : string,
       shared_api repr items a' /\
       validate payload min_sources =
         raise ValueError [Lit "Duplicate API source found: "; Lit a']) /\
  (validate payload min_sources = Ok tt ->
   forall a : string, ~ shared_api repr items a).
Proof.
  intros Hsrc.
  assert (Haccept : validate payload min_sources = Ok tt ->
                    forall a : string, ~ shared_api repr items a).
  { intros Hok. apply validate_Ok_entries in Hok as (items' & Hsrc' & _ & Hok).
    rewrite Hsrc in Hsrc'. injection Hsrc' as <-.
    apply validate_entries_Ok in Hok as (names & Hnames & Hnd & _).
    now apply (distinct_names_not_shared items names). }
  split; [|split; [|exact Haccept]].
  - intros a Hshared.
    destruct (validate payload min_sources) as [[]|e] eqn:E; [|eauto].
    exfalso. exact (Haccept eq_refl a Hshared).
  - intros a Hshared Hkeys Hmethod Hmin Hvalid.
    unfold validate_submission_payload in *.
    destruct (set_diff string_dec required_top_level (keys payload))
      as [|x missing] eqn:E.
    + simpl in *. rewrite Hmethod, Hsrc in *. simpl in *.
      destruct (Z.ltb_spec (Z.of_nat (List.length items)) min_sources); [lia|].
      destruct (validate_entries_valid items Hvalid (empty_set string))
        as [Hok | (b & j & Hb & Hj & [[] | (i & Hlt & Hi)])].
      * exfalso. exact (Haccept Hok a Hshared).
      * exists b. split; [exists i, j; auto | exact Hb].
    + exfalso.
      assert (Hx : In x (set_diff string_dec required_top_level (keys payload)))
        by (rewrite E; now left).
      apply set_diff_iff in Hx as [Hreq Hnot]. exact (Hnot (Hkeys x Hreq)).
Qed.

(** C9. The validator reads [median_price_usd] for its presence only:
    putting any object in its place (zero, a negative number, something
    that is not a number) leaves the verdict as it was, so a record that
    passes goes on passing. *)
Theorem validate_ignores_median (payload : dict) (v : value) (min_sources : Z) :
  dict_has payload "median_price_usd" = true ->
  validate (dict_set payload "median_price_usd" v) min_sources =
    validate payload min_sources.
Proof.
  intros Hhas. unfold validate_submission_payload.
  rewrite (dict_set_keys _ _ _ Hhas). simpl getitem.
  rewrite !dict_set_other by discriminate. reflexivity.
Qed.

End Validator.

(** ** [parse_kraken] *)

Section Parsers.

Variable float_of_str : string -> option float.

Lemma parse_kraken_no_error (d : dict) :
  no_error d ->
  parse_kraken float_of_str (VDict d) =
    match dict_get d "result" with
    | Some (VDict ((first_key, entry) :: rest)) =>
        c <- getitem entry "c";;
        close <- getitem0 c;;
        py_float float_of_str close
    | _ => raise ValueError [Lit "Kraken payload missing result"]
    end.
Proof.
  intros Hno. unfold parse_kraken, method_get.
  assert (Herr : truthy match dict_get d "error" with
                        | Some x => x | None => VNone end = false).
  { destruct (dict_get d "error") as [err|] eqn:E; [now apply Hno | reflexivity]. }
  destruct (dict_get d "error") as [err|]; cbn [bind]; rewrite Herr;
    (destruct (dict_get d "result") as [[| | | | | |[|[first_key entry] rest]]|];
     cbn [bind]; try reflexivity;
     simpl; rewrite String.eqb_refl; reflexivity).
Qed.


End Parsers.

(** ** [collect_prices] *)

Section Collection.

Variable fetch_json : string -> result (value * Z * Z).
Variable clock : nat -> string.

Local Abbreviation collect := (collect_from fetch_json clock).

(** C4, as amended.  The parsers return the price they read, whatever
    its sign; [collect_prices] rejects a price that is zero or negative:
    the source is recorded as a failure with the [ValueError] of the
    non-positive price, no price point is kept for it, and the loop goes on
    with the next source. *)
Theorem collect_rejects_nonpositive (source : Source) (rest : list Source)
  (n : nat) (acc : collected) (payload : value) (status bytes : Z)
  (price : float) :
  fetch_json (url source) = Ok (payload, status, bytes) ->
  parser source payload = Ok price ->
  (price <=? 0)%float = true ->
  collect (source :: rest) n acc =
    collect rest (S n)
      (mk_collected (successes acc)
         (failures acc ++
          [mk_failure (name source)
             [Lit "Non-positive price: "; Fmt (VFloat price)]])
         (run_log acc ++
          [api_call_failure (name source)
             (mk_exn ValueError [Lit "Non-positive price: "; Fmt (VFloat price)])
             (url source)])).
Proof.
  intros Hfetch Hparse Hle. cbn [collect_from]. unfold try_source.
  rewrite Hfetch. cbn [bind]. rewrite Hparse. cbn [bind]. rewrite Hle.
  reflexivity.
Qed.

(** Each source that is handled adds one entry, to the successes or to
    the failures. *)
Lemma collect_from_count (sources : list Source) :
  forall (n : nat) (acc out : collected),
    collect sources n acc = Ok out ->
    List.length (successes out) + List.length (failures out) =
    List.length (successes acc) + List.length (failures acc) + List.length sources.
Proof.
  induction sources as [|source rest IH]; intros n acc out; cbn [collect_from].
  - intros [= <-]. simpl. lia.
  - destruct (try_source fetch_json clock source n) as [[point event]|exc].
    + intros H. apply IH in H. simpl in *. rewrite length_app in H. simpl in H. lia.
    + destruct (isinstance exc handled); [|discriminate].
      intros H. apply IH in H. simpl in *. rewrite length_app in H. simpl in H. lia.
Qed.

(** When every exception a source raises is of a class of the [except]
    clause, the collection returns, with one entry per source. *)
Lemma collect_prices_handled (sources : list Source) :
  (forall (source : Source) (n : nat) (exc : exn),
     In source sources -> try_source fetch_json clock source n = Raise exc ->
     isinstance exc handled = true) ->
  exists out : collected,
    collect_prices fetch_json clock sources = Ok out /\
    List.length (successes out) + List.length (failures out) = List.length sources.
Proof.
  intros Hcaught.
  assert (Hret : forall n acc, exists out, collect sources n acc = Ok out).
  { induction sources as [|source rest IH]; intros n acc; cbn [collect_from];
      [eauto|].
    assert (Hrest : forall (s : Source) (k : nat) (exc : exn),
               In s rest -> try_source fetch_json clock s k = Raise exc ->
               isinstance exc handled = true)
      by (intros s k exc Hin; apply Hcaught; now right).
    destruct (try_source fetch_json clock source n) as [[point event]|exc] eqn:E.
    - apply (IH Hrest).
    - rewrite (Hcaught source n exc (or_introl eq_refl) E). apply (IH Hrest). }
  destruct (Hret 0 (mk_collected [] [] [])) as [out Hout].
  exists out. split; [exact Hout|].
  apply collect_from_count in Hout. simpl in Hout. exact Hout.
Qed.

End Collection.

(** ** The tests of the repository and other closed examples *)

Example test_parse_coingecko :
  parse_coingecko float_of_decimal (VDict [("near", VDict [("usd", VFloat 1.25)])])
  = Ok 1.25%float.
Proof. reflexivity. Qed.

Example test_parse_coinbase :
  parse_coinbase float_of_decimal
    (VDict [("data", VDict [("amount", VStr "1.125"); ("base", VStr "NEAR");
                            ("currency", VStr "USD")])])
  = Ok 1.125%float.
Proof. vm_compute. reflexivity. Qed.

Example test_parse_binance :
  parse_binance float_of_decimal (VDict [("price", VStr "1.37500000")])
  = Ok 1.375%float.
Proof. vm_compute. reflexivity. Qed.

Example test_parse_cryptocompare :
  parse_cryptocompare float_of_decimal (VDict [("USD", VFloat 1.5)])
  = Ok 1.5%float.
Proof. reflexivity. Qed.

Example test_validate_submission_rejects_duplicate_source :
  validate_submission_payload float_of_decimal repr_constant duplicate_payload 3
  = raise ValueError [Lit "Duplicate API source found: "; Lit "coingecko"].
Proof. vm_compute. reflexivity. Qed.

(** [round(x, 6)] of CPython at floats that are no multiples of a power
    of two: 2.6750005 gives 2.675, 0.1234565 gives 0.123456, 1.0000005
    gives 1.000001, 4e-7 gives 0.0, 6e-7 gives 1e-6, 123456789.1234565
    gives 123456789.123456, -2.6750005 gives -2.675. *)
Example round6_decimals :
  round6 0x1.56666a98244e9p+1 = 0x1.5666666666666p+1%float /\
  round6 0x1.f9ad85dfa871ap-4 = 0x1.f9acffa7eb6bfp-4%float /\
  round6 0x1.000008637bd06p+0 = 0x1.000010c6f7a0bp+0%float /\
  round6 0x1.ad7f29abcaf48p-22 = 0%float /\
  round6 0x1.421f5f40d8376p-21 = 0x1.0c6f7a0b5ed8dp-20%float /\
  round6 0x1.d6f34547e6b61p+26 = 0x1.d6f34547e6b40p+26%float /\
  round6 (-0x1.56666a98244e9p+1) = (-0x1.5666666666666p+1)%float.
Proof. repeat split; vm_compute; reflexivity. Qed.

(** The float of a decimal is the quotient the floats compute: 2675 by
    1000, 1 by 3, 123456 and 1012000 by 10^6. *)
Example float_of_ratio_divides :
  float_of_ratio false 2675 1000 = (2675 / 1000)%float /\
  float_of_ratio false 1 3 = (1 / 3)%float /\
  float_of_ratio false 123456 1000000 = (123456 / 1000000)%float /\
  float_of_ratio true 1012000 1000000 = (- (1012000 / 1000000))%float.
Proof. repeat split; vm_compute; reflexivity. Qed.

(** C1, at the four sources of [test_build_submission_uses_median]: the
    median of 1, 3, 2 and 100 is 2.5; and at three sources whose median,
    the float nearest to 2.6750005, is rounded to 2.675. *)
Lemma four_sources_median :
  (exists m r : float,
     spec_median [1; 3; 2; 100]%float m /\
     six_places m r /\
     build_submission float_of_decimal "2026-02-22T00:00:05" four_sources
       "code+logs" 3 =
       Ok [("median_price_usd", VFloat r);
           ("sources", VList four_sources);
           ("calculation_method", VStr "median");
           ("calculated_at", VStr (utc_now_iso "2026-02-22T00:00:05"));
           ("code_or_logs", VStr "code+logs")]) /\
  build_submission float_of_decimal "2026-02-22T00:00:05" four_sources
    "code+logs" 3 =
    Ok [("median_price_usd", VFloat 2.5);
        ("sources", VList four_sources);
        ("calculation_method", VStr "median");
        ("calculated_at", VStr "2026-02-22T00:00:05Z");
        ("code_or_logs", VStr "code+logs")] /\
  build_submission float_of_decimal "2026-02-22T00:00:05" fine_sources
    "code+logs" 3 =
    Ok [("median_price_usd", VFloat 0x1.5666666666666p+1);
        ("sources", VList fine_sources);
        ("calculation_method", VStr "median");
        ("calculated_at", VStr "2026-02-22T00:00:05Z");
        ("code_or_logs", VStr "code+logs")].
Proof.
  split; [|split; vm_compute; reflexivity].
  apply (build_submission_median float_of_decimal "2026-02-22T00:00:05"
           four_sources [1; 3; 2; 100]%float "code+logs" 3).
  - discriminate.
  - simpl. lia.
  - repeat (constructor;
            [eexists _, _; split; [reflexivity|];
             split; [reflexivity|]; split; reflexivity|]).
    constructor.
Defined.

(** C2, at [test_build_submission_requires_minimum_sources]: one success
    with a quorum of three. *)
Lemma one_source_quorum :
  build_submission float_of_decimal "2026-02-22T00:00:05" one_source "x" 3 =
    Raise (quorum_error 1 3).
Proof.
  apply (build_submission_quorum float_of_decimal "2026-02-22T00:00:05"
           one_source "x" 3); simpl; lia.
Defined.

(** C3, at three price points. *)
Lemma three_points_round_trip :
  exists record : dict,
    build_submission float_of_decimal "2026-02-22T00:00:05"
      (map point_value three_points) "logs" 3 = Ok record /\
    dict_get record "sources" = Some (VList (map point_value three_points)) /\
    validate_submission_payload float_of_decimal repr_constant record 3 = Ok tt.
Proof.
  apply (build_then_validate float_of_decimal repr_constant
           "2026-02-22T00:00:05" three_points "logs" 3).
  - lia.
  - simpl. lia.
  - repeat (constructor; [simpl; intuition discriminate|]). constructor.
  - repeat constructor; simpl.
    + now exists "2026-02-22T00:00:00".
    + now exists "2026-02-22T00:00:01".
    + now exists "2026-02-22T00:00:02".
Defined.

(** C4 as stated fails: each parser returns the zero or negative price it
    reads. *)
Lemma parsers_return_nonpositive :
  parse_coingecko float_of_decimal
    (VDict [("near", VDict [("usd", VFloat (-1))])]) = Ok (-1)%float /\
  parse_coinbase float_of_decimal
    (VDict [("data", VDict [("amount", VStr "0.0")])]) = Ok 0%float /\
  parse_binance float_of_decimal
    (VDict [("price", VStr "0.00000000")]) = Ok 0%float /\
  parse_kraken float_of_decimal
    (VDict [("error", VList []);
            ("result", VDict [("NEARUSD", VDict [("c", VList [VStr "0.0"; VStr "10.0"])])])])
    = Ok 0%float /\
  parse_cryptocompare float_of_decimal (VDict [("USD", VInt (-3))])
    = Ok (-3)%float.
Proof. repeat split; vm_compute; reflexivity. Qed.

(** C4 as amended, at a network whose only answer is a negative price. *)
Lemma negative_price_is_a_failure :
  collect_prices fetch_negative example_clock
    [mk_source "binance"
       "https://api.binance.com/api/v3/ticker/price?symbol=NEARUSDT"
       (parse_binance float_of_decimal)] =
    Ok (mk_collected []
          [mk_failure "binance" [Lit "Non-positive price: "; Fmt (VFloat (-1))]]
          [api_call_failure "binance"
             (mk_exn ValueError [Lit "Non-positive price: "; Fmt (VFloat (-1))])
             "https://api.binance.com/api/v3/ticker/price?symbol=NEARUSDT"]).
Proof.
  apply (collect_rejects_nonpositive fetch_negative example_clock
           (mk_source "binance"
              "https://api.binance.com/api/v3/ticker/price?symbol=NEARUSDT"
              (parse_binance float_of_decimal))
           [] 0 (mk_collected [] [] [])
           (VDict [("price", VFloat (-1))]) 200 15 (-1)%float);
    reflexivity.
Defined.

(** C5 fails on the code.  Every endpoint answers, four of them with a
    well-formed body; the last-close array of the Kraken body is empty.
    The [IndexError] of [parse_kraken] is of no class of the [except]
    clause: it leaves [collect_prices], and the prices of the other four
    sources are lost with it. *)
Theorem collect_prices_index_error :
  parse_kraken float_of_decimal kraken_empty_close = raise IndexError [] /\
  isinstance (mk_exn IndexError []) handled = false /\
  collect_prices fetch_empty_close example_clock (SOURCES float_of_decimal) =
    raise IndexError [].
Proof. repeat split; vm_compute; reflexivity. Qed.



(** C7, at a payload that holds the sources only: the four other fields
    are listed, in order. *)
Lemma sources_only_payload_missing :
  exists listed : list string,
    validate_submission_payload float_of_decimal repr_constant
      sources_only_payload 3 =
      raise ValueError
        [Lit "Submission missing required top-level fields: ";
         Fmt (VList (map VStr listed))] /\
    forall k : string,
      In k listed <->
      In k required_top_level /\ ~ In k (keys sources_only_payload).
Proof.
  apply (validate_lists_missing float_of_decimal repr_constant
           sources_only_payload 3).
  exists "median_price_usd". split; simpl; [auto | intuition discriminate].
Defined.

Example sources_only_payload_message :
  validate_submission_payload float_of_decimal repr_constant
    sources_only_payload 3 =
    raise ValueError
      [Lit "Submission missing required top-level fields: ";
       Fmt (VList [VStr "calculated_at"; VStr "calculation_method";
                   VStr "code_or_logs"; VStr "median_price_usd"])].
Proof. vm_compute. reflexivity. Qed.

(** C8, at the record of
    [test_validate_submission_rejects_duplicate_source]. *)
Lemma duplicate_payload_rejected :
  exists a : string,
    shared_api repr_constant duplicate_sources a /\
    validate_submission_payload float_of_decimal repr_constant
      duplicate_payload 3 =
      raise ValueError [Lit "Duplicate API source found: "; Lit a].
Proof.
  apply (proj1 (proj2 (validate_rejects_shared_api float_of_decimal
                         repr_constant duplicate_payload 3 duplicate_sources
                         eq_refl)) "coingecko").
  - exists 0, 1. split; [lia | split; reflexivity].
  - intros k Hk. simpl in Hk |- *. tauto.
  - reflexivity.
  - simpl. lia.
  - repeat constructor;
      (eexists _, _, _, _, _; repeat split; reflexivity).
Defined.

(** C9, at a record that passes: it passes as well with a median of
    zero, a negative one, a text and [None]. *)
Lemma any_median_passes :
  validate_submission_payload float_of_decimal repr_constant
    (dict_set valid_payload "median_price_usd" (VFloat 0)) 3 = Ok tt /\
  validate_submission_payload float_of_decimal repr_constant
    (dict_set valid_payload "median_price_usd" (VFloat (-1))) 3 = Ok tt /\
  validate_submission_payload float_of_decimal repr_constant
    (dict_set valid_payload "median_price_usd" (VStr "n/a")) 3 = Ok tt /\
  validate_submission_payload float_of_decimal repr_constant
    (dict_set valid_payload "median_price_usd" VNone) 3 = Ok tt.
Proof.
  split; [|split; [|split]];
    (rewrite (validate_ignores_median float_of_decimal repr_constant
                valid_payload _ 3 eq_refl);
     vm_compute; reflexivity).
Defined.

(** C10 as stated fails: with the quorum met, a source point without a
    price, or with one that is no number, makes [build_submission] fail
    with an error that is not the quorum error. *)
Lemma build_submission_price_errors :
  build_submission float_of_decimal "2026-02-22T00:00:05" [priceless_point] "x" 1
    = raise KeyError [Fmt (VStr "price")] /\
  build_submission float_of_decimal "2026-02-22T00:00:05" [null_price_point] "x" 1
    = raise TypeError [].
Proof. split; vm_compute; reflexivity. Qed.

(** C10 as amended, at the four sources with a quorum of three. *)
Lemma four_sources_no_failure :
  [1; 3; 2; 100]%float <> [] /\
  exists record : dict,
    build_submission float_of_decimal "2026-02-22T00:00:05" four_sources
      "code+logs" 3 = Ok record.
Proof.
  assert (Hone : (1 <= 3)%Z) by lia.
  apply (proj1 (proj2 (build_submission_failures float_of_decimal
                         "2026-02-22T00:00:05" four_sources "code+logs" 3 Hone))
           [1; 3; 2; 100]%float).
  - reflexivity.
  - simpl. lia.
Defined.

(** * Further properties *)

(** ** The validator, check by check *)

Section ValidatorChecks.

Variable float_of_str : string -> option float.
Variable repr : value -> string.

Local Abbreviation validate := (validate_submission_payload float_of_str repr).
Local Abbreviation entries_ok := (validate_entries float_of_str repr).
Local Abbreviation entry_ok := (validate_entry float_of_str repr).
Local Abbreviation valid := (entry_valid float_of_str repr).
Local Abbreviation name_of := (api_name_of repr).

Lemma required_present (payload : dict) :
  (forall k : string, In k required_top_level -> In k (keys payload)) <->
  set_diff string_dec required_top_level (keys payload) = [].
Proof.
  split.
  - intros Hall.
    destruct (set_diff string_dec required_top_level (keys payload))
      as [|x rest] eqn:E; [reflexivity|].
    assert (Hx : In x (set_diff string_dec required_top_level (keys payload)))
      by (rewrite E; now left).
    apply set_diff_iff in Hx as [Hreq Hnot]. elim Hnot. now apply Hall.
  - intros E k Hreq.
    destruct (in_dec string_dec k (keys payload)) as [Hin|Hnot]; [exact Hin|].
    assert (Hk : In k (set_diff string_dec required_top_level (keys payload)))
      by (apply set_diff_iff; split; assumption).
    rewrite E in Hk. contradiction.
Qed.

Lemma differs_from_str_false (v : value) (s : string) :
  differs_from_str v s = false <-> v = VStr s.
Proof.
  destruct v; simpl; try (split; [discriminate | discriminate]).
  rewrite negb_false_iff, String.eqb_eq. split; [now intros -> | now intros [= ->]].
Qed.

(** Past the top-level checks the verdict is that of the loop. *)
Lemma validate_top_level (payload : dict) (min_sources : Z) (items : list value) :
  top_level_ok payload min_sources items ->
  validate payload min_sources = entries_ok (empty_set string) items.
Proof.
  intros (Hkeys & Hmethod & Hsrc & Hmin). unfold validate_submission_payload.
  rewrite (proj1 (required_present payload) Hkeys). simpl.
  rewrite Hmethod, Hsrc. simpl.
  destruct (Z.ltb_spec (Z.of_nat (List.length items)) min_sources); [lia|].
  reflexivity.
Qed.

Lemma validate_Ok_top_level (payload : dict) (min_sources : Z) :
  validate payload min_sources = Ok tt ->
  exists items : list value,
    top_level_ok payload min_sources items /\
    entries_ok (empty_set string) items = Ok tt.
Proof.
  unfold validate_submission_payload.
  destruct (set_diff string_dec required_top_level (keys payload)) eqn:E;
    [|discriminate].
  intros H. apply bind_Ok in H as (method & Hm & H).
  destruct (differs_from_str method "median") eqn:D; [discriminate|].
  apply differs_from_str_false in D. subst method.
  apply bind_Ok in H as (sources & Hsrc & H).
  simpl in Hm, Hsrc.
  destruct (dict_get payload "calculation_method") as [m|] eqn:Em;
    [|discriminate].
  destruct (dict_get payload "sources") as [v|] eqn:Ev; [|discriminate].
  injection Hm as ->. injection Hsrc as ->.
  destruct sources as [| | | | |items|]; try discriminate.
  destruct (Z.ltb_spec (Z.of_nat (List.length items)) min_sources);
    [discriminate|].
  exists items. split; [|exact H].
  split; [now apply required_present|]. repeat split; assumption.
Qed.

Lemma first_missing_None (d : dict) (wanted : list string) :
  first_missing d wanted = None <-> forall k, In k wanted -> In k (keys d).
Proof.
  induction wanted as [|key rest IH]; simpl.
  - split; [intros _ k [] | reflexivity].
  - destruct (dict_has d key) eqn:E.
    + rewrite IH. apply dict_has_In in E. split.
      * intros H k [<-|Hk]; auto.
      * intros H k Hk. apply H. now right.
    + split; [discriminate|]. intros H.
      assert (Hin : In key (keys d)) by (apply H; now left).
      apply dict_has_In in Hin. congruence.
Qed.

Lemma first_missing_Some (d : dict) (wanted : list string) (key : string) :
  first_missing d wanted = Some key -> In key wanted /\ ~ In key (keys d).
Proof.
  induction wanted as [|k rest IH]; simpl; [discriminate|].
  destruct (dict_has d k) eqn:E.
  - intros H. destruct (IH H). auto.
  - intros [= <-]. split; [now left|]. intros Hin.
    apply dict_has_In in Hin. congruence.
Qed.

Lemma dict_get_In (d : dict) (k : string) (v : value) :
  dict_get d k = Some v -> In k (keys d).
Proof.
  intros H. apply dict_has_In. unfold dict_has. now rewrite H.
Qed.

Lemma In_dict_get (d : dict) (k : string) :
  In k (keys d) -> exists v : value, dict_get d k = Some v.
Proof.
  intros H. apply dict_has_In in H. unfold dict_has in H.
  destruct (dict_get d k) as [v|]; [eauto | discriminate].
Qed.

(** An entry the loop passes has passed every check. *)
Lemma validate_entry_Ok_valid (seen seen' : set string) (item : value) :
  entry_ok seen item = Ok seen' -> valid item.
Proof.
  unfold validate_entry. destruct item as [| | | | | |d]; try discriminate.
  destruct (first_missing d _) eqn:Hkeys; [discriminate|].
  intros H. apply bind_Ok in H as (api & Hapi & H).
  destruct (set_mem string_dec (py_str repr api) seen); [discriminate|].
  apply bind_Ok in H as (price & Hprice & H). apply bind_Ok in H as (p & Hp & H).
  destruct (p <=? 0)%float eqn:Hle; [discriminate|].
  apply bind_Ok in H as (ts & Hts & H).
  destruct (endswith (py_str repr ts) "Z") eqn:Hend; [|discriminate].
  simpl in Hapi, Hprice, Hts.
  destruct (dict_get d "api") as [a|] eqn:Ea; [|discriminate].
  destruct (dict_get d "price") as [b|] eqn:Eb; [|discriminate].
  destruct (dict_get d "timestamp") as [c|] eqn:Ec; [|discriminate].
  injection Hapi as ->. injection Hprice as ->. injection Hts as ->.
  exists d, api, price, ts, p. repeat split; assumption.
Qed.

Lemma validate_entries_Ok_valid (items : list value) :
  forall seen : set string,
    entries_ok seen items = Ok tt -> Forall valid items.
Proof.
  induction items as [|item items IH]; intros seen H; [constructor|].
  cbn [validate_entries] in H. apply bind_Ok in H as (seen' & Hentry & Hrest).
  constructor; [eapply validate_entry_Ok_valid; eassumption | eapply IH; eassumption].
Qed.

(** X1. The validator accepts a payload exactly when the seven checks
    of its source hold: the five fields are there, the method is the text
    [median], the sources are a list of at least [min_sources] entries,
    each entry is an object with an api, a price [float] reads as a number
    that is not [<= 0] and a timestamp whose text ends in [Z], and no two
    entries share an api name. *)
Theorem validate_accepts_iff (payload : dict) (min_sources : Z) :
  validate payload min_sources = Ok tt <->
  exists items : list value,
    top_level_ok payload min_sources items /\
    Forall valid items /\
    forall a : string, ~ shared_api repr items a.
Proof.
  split.
  - intros H. apply validate_Ok_top_level in H as (items & Htop & Hok).
    exists items. split; [exact Htop|]. split.
    + eapply validate_entries_Ok_valid; eassumption.
    + apply validate_entries_Ok in Hok as (names & Hnames & Hnd & _).
      now apply (distinct_names_not_shared repr items names).
  - intros (items & Htop & Hvalid & Hdistinct).
    rewrite (validate_top_level _ _ _ Htop).
    destruct (validate_entries_valid float_of_str repr items Hvalid
                (empty_set string))
      as [Hok | (b & j & _ & Hj & [[] | (i & Hlt & Hi)])]; [exact Hok|].
    elim (Hdistinct b). exists i, j. auto.
Qed.

(** *** The first entry that fails *)

(** The loop, past a run of valid entries with distinct names: what
    [seen_apis] holds then, and that the rest of the loop goes on from it. *)
Lemma validate_entries_past (front : list value) :
  Forall valid front ->
  forall seen : set string,
    NoDup (map name_of front) ->
    (forall a : string, In a seen -> ~ In (Some a) (map name_of front)) ->
    exists seen' : set string,
      (forall a : string,
         In a seen' <-> In a seen \/ In (Some a) (map name_of front)) /\
      forall back : list value,
        entries_ok seen (front ++ back) = entries_ok seen' back.
Proof.
  induction 1 as [|item front Hitem _ IH]; intros seen Hnd Hfresh.
  - exists seen. split; [simpl; tauto | reflexivity].
  - cbn [map] in Hnd, Hfresh. inversion Hnd as [|? ? Hnotin Hnd']; subst.
    destruct (validate_entry_valid float_of_str repr seen item Hitem)
      as (a & Hname & Hentry).
    rewrite Hname in *.
    assert (Hmem : set_mem string_dec a seen = false).
    { apply set_mem_complete2. intros Hin. apply (Hfresh a Hin). now left. }
    rewrite Hmem in Hentry.
    destruct (IH (set_add string_dec a seen) Hnd') as (seen' & Hseen' & Hrest).
    { intros b Hb Hin. apply set_add_iff in Hb as [-> | Hb]; [contradiction|].
      apply (Hfresh b Hb). now right. }
    exists seen'. split.
    + intros b. rewrite Hseen', set_add_iff. cbn [map]. rewrite Hname.
      simpl. split.
      * intros [[-> | Hb] | Hb]; auto.
      * intros [Hb | [[= ->] | Hb]]; auto.
    + intros back. cbn [app validate_entries]. rewrite Hentry. cbn [bind].
      apply Hrest.
Qed.

(** The error of the first entry that fails is the error of the
    validator. *)
Lemma validate_first_failure (payload : dict) (min_sources : Z)
  (front back : list value) (item : value) :
  top_level_ok payload min_sources (front ++ item :: back) ->
  Forall valid front ->
  NoDup (map name_of front) ->
  exists seen : set string,
    (forall a : string, In a seen <-> In (Some a) (map name_of front)) /\
    validate payload min_sources =
      (seen' <- entry_ok seen item;; entries_ok seen' back).
Proof.
  intros Htop Hvalid Hnd. rewrite (validate_top_level _ _ _ Htop).
  destruct (validate_entries_past front Hvalid (empty_set string) Hnd)
    as (seen & Hseen & Hrest); [intros a []|].
  exists seen. split.
  - intros a. rewrite Hseen. simpl. tauto.
  - rewrite Hrest. reflexivity.
Qed.

(** X2. Past valid entries with distinct names, an entry that is not
    an object is refused with the error that says so. *)
Theorem validate_entry_not_object (payload : dict) (min_sources : Z)
  (front back : list value) (item : value) :
  top_level_ok payload min_sources (front ++ item :: back) ->
  Forall valid front ->
  NoDup (map name_of front) ->
  (forall d : dict, item <> VDict d) ->
  validate payload min_sources =
    raise ValueError [Lit "Each source entry must be an object"].
Proof.
  intros Htop Hvalid Hnd Hobj.
  destruct (validate_first_failure _ _ _ _ _ Htop Hvalid Hnd) as (seen & _ & ->).
  destruct item; try reflexivity. elim (Hobj entries). reflexivity.
Qed.

(** X3. Past valid entries with distinct names, an object that lacks
    one of [api], [price] and [timestamp] is refused with an error that
    names a key it lacks. *)
Theorem validate_entry_missing_key (payload : dict) (min_sources : Z)
  (front back : list value) (d : dict) :
  top_level_ok payload min_sources (front ++ VDict d :: back) ->
  Forall valid front ->
  NoDup (map name_of front) ->
  (exists k : string, In k entry_keys /\ ~ In k (keys d)) ->
  exists key : string,
    In key entry_keys /\ ~ In key (keys d) /\
    validate payload min_sources =
      raise ValueError [Lit "Source entry missing key: "; Lit key].
Proof.
  intros Htop Hvalid Hnd (k & Hk & Hlacks).
  destruct (validate_first_failure _ _ _ _ _ Htop Hvalid Hnd) as (seen & _ & ->).
  unfold validate_entry. fold entry_keys.
  destruct (first_missing d entry_keys) as [key|] eqn:E.
  - apply first_missing_Some in E as [Hin Hnot]. exists key. auto.
  - elim Hlacks. now apply (proj1 (first_missing_None d entry_keys) E).
Qed.

(** The entry is an object with the three keys, which hold [api],
    [price] and [timestamp]. *)
Lemma validate_entry_with_keys (seen : set string) (d : dict)
  (api price timestamp : value) :
  dict_get d "api" = Some api ->
  dict_get d "price" = Some price ->
  dict_get d "timestamp" = Some timestamp ->
  entry_ok seen (VDict d) =
    if set_mem string_dec (py_str repr api) seen then
      raise ValueError [Lit "Duplicate API source found: "; Lit (py_str repr api)]
    else
      p <- py_float float_of_str price;;
      if (p <=? 0)%float then
        raise ValueError
          [Lit "Invalid non-positive price for source: "; Lit (py_str repr api)]
      else if endswith (py_str repr timestamp) "Z" then
        Ok (set_add string_dec (py_str repr api) seen)
      else
        raise ValueError
          [Lit "Timestamp must be UTC ISO string ending with 'Z': ";
           Lit (py_str repr api)].
Proof.
  intros Ha Hp Ht.
  unfold validate_entry, first_missing, dict_has, getitem.
  rewrite Ha, Hp, Ht. cbn [bind].
  destruct (set_mem string_dec (py_str repr api) seen); [reflexivity|].
  destruct (py_float float_of_str price) as [p|e]; cbn [bind]; [|reflexivity].
  destruct (p <=? 0)%float; reflexivity.
Qed.

(** X4. Past valid entries with distinct names, an entry with a new api
    name whose price is zero or negative is refused with the error that
    names its api. *)
Theorem validate_entry_nonpositive (payload : dict) (min_sources : Z)
  (front back : list value) (d : dict) (api price timestamp : value)
  (p : float) :
  top_level_ok payload min_sources (front ++ VDict d :: back) ->
  Forall valid front ->
  NoDup (map name_of front) ->
  dict_get d "api" = Some api ->
  dict_get d "price" = Some price ->
  dict_get d "timestamp" = Some timestamp ->
  ~ In (Some (py_str repr api)) (map name_of front) ->
  py_float float_of_str price = Ok p ->
  (p <=? 0)%float = true ->
  validate payload min_sources =
    raise ValueError
      [Lit "Invalid non-positive price for source: "; Lit (py_str repr api)].
Proof.
  intros Htop Hvalid Hnd Ha Hp Ht Hnew Hfloat Hle.
  destruct (validate_first_failure _ _ _ _ _ Htop Hvalid Hnd)
    as (seen & Hseen & ->).
  rewrite (validate_entry_with_keys seen d api price timestamp Ha Hp Ht).
  rewrite (set_mem_complete2 string_dec); [|now rewrite Hseen].
  rewrite Hfloat. cbn [bind]. rewrite Hle. reflexivity.
Qed.

(** X5. Past valid entries with distinct names, an entry with a new api
    name and a good price whose timestamp, as text, does not end in [Z] is
    refused with the error that names its api. *)
Theorem validate_entry_timestamp (payload : dict) (min_sources : Z)
  (front back : list value) (d : dict) (api price timestamp : value)
  (p : float) :
  top_level_ok payload min_sources (front ++ VDict d :: back) ->
  Forall valid front ->
  NoDup (map name_of front) ->
  dict_get d "api" = Some api ->
  dict_get d "price" = Some price ->
  dict_get d "timestamp" = Some timestamp ->
  ~ In (Some (py_str repr api)) (map name_of front) ->
  py_float float_of_str price = Ok p ->
  (p <=? 0)%float = false ->
  endswith (py_str repr timestamp) "Z" = false ->
  validate payload min_sources =
    raise ValueError
      [Lit "Timestamp must be UTC ISO string ending with 'Z': ";
       Lit (py_str repr api)].
Proof.
  intros Htop Hvalid Hnd Ha Hp Ht Hnew Hfloat Hle Hend.
  destruct (validate_first_failure _ _ _ _ _ Htop Hvalid Hnd)
    as (seen & Hseen & ->).
  rewrite (validate_entry_with_keys seen d api price timestamp Ha Hp Ht).
  rewrite (set_mem_complete2 string_dec); [|now rewrite Hseen].
  rewrite Hfloat. cbn [bind]. rewrite Hle, Hend. reflexivity.
Qed.

(** X6. Past valid entries with distinct names, an entry with a new api
    name whose price [float] does not accept makes the validator raise the
    error of [float] itself, a [TypeError], a [ValueError] or an
    [OverflowError], in place of an error of its own. *)
Theorem validate_entry_float_error (payload : dict) (min_sources : Z)
  (front back : list value) (d : dict) (api price timestamp : value)
  (e : exn) :
  top_level_ok payload min_sources (front ++ VDict d :: back) ->
  Forall valid front ->
  NoDup (map name_of front) ->
  dict_get d "api" = Some api ->
  dict_get d "price" = Some price ->
  dict_get d "timestamp" = Some timestamp ->
  ~ In (Some (py_str repr api)) (map name_of front) ->
  py_float float_of_str price = Raise e ->
  validate payload min_sources = Raise e /\
  In (exn_cls e) [TypeError; ValueError; OverflowError].
Proof.
  intros Htop Hvalid Hnd Ha Hp Ht Hnew Hfloat.
  destruct (validate_first_failure _ _ _ _ _ Htop Hvalid Hnd)
    as (seen & Hseen & ->).
  rewrite (validate_entry_with_keys seen d api price timestamp Ha Hp Ht).
  rewrite (set_mem_complete2 string_dec); [|now rewrite Hseen].
  rewrite Hfloat. cbn [bind]. split; [reflexivity|].
  apply py_float_Raise_class in Hfloat as [-> | [-> | ->]]; simpl; auto.
Qed.

(** X7. Past valid entries with distinct names, an entry whose api name
    one of them has is refused as a duplicate, whatever its price and its
    timestamp hold. *)
Theorem validate_entry_duplicate_first (payload : dict) (min_sources : Z)
  (front back : list value) (d : dict) (api price timestamp : value) :
  top_level_ok payload min_sources (front ++ VDict d :: back) ->
  Forall valid front ->
  NoDup (map name_of front) ->
  dict_get d "api" = Some api ->
  dict_get d "price" = Some price ->
  dict_get d "timestamp" = Some timestamp ->
  In (Some (py_str repr api)) (map name_of front) ->
  validate payload min_sources =
    raise ValueError [Lit "Duplicate API source found: "; Lit (py_str repr api)].
Proof.
  intros Htop Hvalid Hnd Ha Hp Ht Hold.
  destruct (validate_first_failure _ _ _ _ _ Htop Hvalid Hnd)
    as (seen & Hseen & ->).
  rewrite (validate_entry_with_keys seen d api price timestamp Ha Hp Ht).
  rewrite (set_mem_correct2 string_dec); [reflexivity | now apply Hseen].
Qed.

(** X8. With the five fields there, a method that is not the text
    [median] is refused before the sources are looked at; with the method
    right, sources that are not a list, or a list of fewer than
    [min_sources] entries, are refused before any entry is looked at. *)
Theorem validate_top_level_errors (payload : dict) (min_sources : Z)
  (method sources : value) :
  (forall k : string, In k required_top_level -> In k (keys payload)) ->
  dict_get payload "calculation_method" = Some method ->
  dict_get payload "sources" = Some sources ->
  (method <> VStr "median" ->
   validate payload min_sources =
     raise ValueError [Lit "calculation_method must be 'median'"]) /\
  (method = VStr "median" ->
   (forall items : list value,
      sources = VList items ->
      (Z.of_nat (List.length items) < min_sources)%Z) ->
   validate payload min_sources =
     raise ValueError
       [Lit "sources must contain at least "; Fmt (VInt min_sources);
        Lit " entries"]).
Proof.
  intros Hkeys Hmethod Hsrc. unfold validate_submission_payload.
  rewrite (proj1 (required_present payload) Hkeys). simpl.
  rewrite Hmethod, Hsrc. simpl. split.
  - intros Hne. destruct (differs_from_str method "median") eqn:D; [reflexivity|].
    apply differs_from_str_false in D. contradiction.
  - intros -> Hshort. simpl.
    destruct sources as [| | | | |items|]; try reflexivity.
    destruct (Z.ltb_spec (Z.of_nat (List.length items)) min_sources);
      [reflexivity|].
    specialize (Hshort items eq_refl). lia.
Qed.

End ValidatorChecks.

(** ** The collection, source by source *)

Section CollectionOutcomes.

Variable fetch_json : string -> result (value * Z * Z).
Variable clock : nat -> string.

Local Abbreviation collect := (collect_from fetch_json clock).
Local Abbreviation price_of := (source_price fetch_json).
Local Abbreviation ok := (yields fetch_json).

Lemma try_source_Raise (source : Source) (n : nat) (e : exn) :
  try_source fetch_json clock source n = Raise e <-> price_of source = Raise e.
Proof.
  unfold try_source, source_price.
  destruct (fetch_json (url source)) as [[[payload status] bytes]|e'];
    cbn [bind fst]; [|split; intros [= ->]; reflexivity].
  destruct (parser source payload) as [price|e']; cbn [bind];
    [|split; intros [= ->]; reflexivity].
  destruct (price <=? 0)%float; [split; intros [= <-]; reflexivity|].
  split; discriminate.
Qed.

Lemma try_source_Ok (source : Source) (n : nat) (point : value)
  (event : log_event) :
  try_source fetch_json clock source n = Ok (point, event) ->
  exists p : float,
    price_of source = Ok p /\
    point = point_value
              (mk_point (name source) (round6 p) (utc_now_iso (clock n))).
Proof.
  unfold try_source, source_price.
  destruct (fetch_json (url source)) as [[[payload status] bytes]|e'];
    cbn [bind fst]; [|discriminate].
  destruct (parser source payload) as [price|e']; cbn [bind]; [|discriminate].
  destruct (price <=? 0)%float; [discriminate|].
  intros [= <- _]. exists price. split; reflexivity.
Qed.

Lemma source_price_sign (source : Source) (p : float) :
  price_of source = Ok p -> (p <=? 0)%float = false.
Proof.
  unfold source_price.
  destruct (fetch_json (url source)) as [fetched|e]; cbn [bind]; [|discriminate].
  destruct (parser source (fst (fst fetched))) as [price|e]; cbn [bind];
    [|discriminate].
  destruct (price <=? 0)%float eqn:E; [discriminate|]. now intros [= <-].
Qed.

(** The loop, with what it has gathered so far. *)
Lemma collect_from_outcomes (sources : list Source) :
  forall (n : nat) (acc out : collected),
    collect sources n acc = Ok out ->
    exists (pps : list PricePoint) (fs : list failure) (events : list log_event),
      successes out = successes acc ++ map point_value pps /\
      failures out = failures acc ++ fs /\
      run_log out = run_log acc ++ events /\
      List.length events = List.length sources /\
      map point_api pps = map name (filter ok sources) /\
      map failed_api fs = map name (filter (fun s => negb (ok s)) sources) /\
      Forall (success_of fetch_json clock sources) pps /\
      Forall (failure_of fetch_json sources) fs.
Proof.
  induction sources as [|source rest IH]; intros n acc out; cbn [collect_from].
  - intros [= <-]. exists [], [], []. simpl. rewrite !app_nil_r.
    repeat split; constructor.
  - assert (Hmono_s : forall pps, Forall (success_of fetch_json clock rest) pps ->
                           Forall (success_of fetch_json clock (source :: rest)) pps).
    { intros pps. apply Forall_impl. intros pp (s & k & p & Hin & Hp & ->).
      exists s, k, p. split; [now right | auto]. }
    assert (Hmono_f : forall fs, Forall (failure_of fetch_json rest) fs ->
                           Forall (failure_of fetch_json (source :: rest)) fs).
    { intros fs. apply Forall_impl. intros f (s & e & Hin & He & Hh & ->).
      exists s, e. split; [now right | auto]. }
    destruct (try_source fetch_json clock source n) as [[point event]|exc] eqn:E.
    + apply try_source_Ok in E as (p & Hp & ->). intros H.
      apply IH in H as (pps & fs & events & Hs & Hf & Hl & Hlen & Hn & Hfn & Hps & Hfs).
      cbn [successes failures run_log] in Hs, Hf, Hl.
      exists (mk_point (name source) (round6 p) (utc_now_iso (clock n)) :: pps),
        fs, (event :: events).
      assert (Hy : ok source = true) by (unfold yields; now rewrite Hp).
      cbn [filter]. rewrite Hy. cbn [negb map].
      rewrite Hs, Hf, Hl, <- !app_assoc. cbn [app List.length].
      repeat match goal with |- _ /\ _ => split end;
        try reflexivity; cbn [point_api]; try congruence; auto.
      constructor; [|auto]. exists source, n, p. split; [now left | auto].
    + apply try_source_Raise in E.
      destruct (isinstance exc handled) eqn:Hh; [|discriminate]. intros H.
      apply IH in H as (pps & fs & events & Hs & Hf & Hl & Hlen & Hn & Hfn & Hps & Hfs).
      cbn [successes failures run_log] in Hs, Hf, Hl.
      exists pps, (mk_failure (name source) (exn_msg exc) :: fs),
        (api_call_failure (name source) exc (url source) :: events).
      assert (Hy : ok source = false) by (unfold yields; now rewrite E).
      cbn [filter]. rewrite Hy. cbn [negb map].
      rewrite Hs, Hf, Hl, <- !app_assoc. cbn [app List.length].
      repeat match goal with |- _ /\ _ => split end;
        try reflexivity; cbn [failed_api]; try congruence; auto.
      constructor; [|auto]. exists source, exc. split; [now left | auto].
Qed.

Lemma collect_prices_outcomes (sources : list Source) (out : collected) :
  collect_prices fetch_json clock sources = Ok out ->
  exists (pps : list PricePoint),
    successes out = map point_value pps /\
    List.length (run_log out) = List.length sources /\
    map point_api pps = map name (filter ok sources) /\
    map failed_api (failures out) =
      map name (filter (fun s => negb (ok s)) sources) /\
    Forall (success_of fetch_json clock sources) pps /\
    Forall (failure_of fetch_json sources) (failures out).
Proof.
  intros H. apply collect_from_outcomes in H
    as (pps & fs & events & Hs & Hf & Hl & Hlen & Hn & Hfn & Hps & Hfs).
  simpl in Hs, Hf, Hl. exists pps. rewrite Hf, Hl.
  repeat match goal with |- _ /\ _ => split end; assumption.
Qed.

Lemma filter_split_length {A : Type} (f : A -> bool) (l : list A) :
  List.length (filter f l) + List.length (filter (fun x => negb (f x)) l)
  = List.length l.
Proof.
  induction l as [|x l IH]; simpl; [reflexivity|].
  destruct (f x); simpl; lia.
Qed.

(** X9. When [collect_prices] returns, every source has one outcome and
    one line in the log: the successes and the failures together are as
    many as the sources, and so are the log lines. *)
Theorem collect_prices_one_outcome (sources : list Source) (out : collected) :
  collect_prices fetch_json clock sources = Ok out ->
  List.length (successes out) + List.length (failures out)
    = List.length sources /\
  List.length (run_log out) = List.length sources.
Proof.
  intros H. apply collect_prices_outcomes in H
    as (pps & Hs & Hlog & Hn & Hfn & _ & _).
  split; [|exact Hlog].
  rewrite Hs, length_map, <- (length_map point_api), Hn.
  rewrite <- (length_map failed_api), Hfn, !length_map.
  apply filter_split_length.
Qed.

(** X10. When [collect_prices] returns, the successes are the price
    points of the sources that yield a price, in the order of the sources,
    and the failures are the entries of the other sources, in that order
    too. *)
Theorem collect_prices_in_order (sources : list Source) (out : collected) :
  collect_prices fetch_json clock sources = Ok out ->
  exists pps : list PricePoint,
    successes out = map point_value pps /\
    map point_api pps = map name (filter ok sources) /\
    map failed_api (failures out) =
      map name (filter (fun s => negb (ok s)) sources).
Proof.
  intros H. apply collect_prices_outcomes in H
    as (pps & Hs & _ & Hn & Hfn & _ & _). eauto.
Qed.

(** X11. Every success [collect_prices] returns is the point of one of
    the sources: it holds the name of the source, the price the parser read
    rounded to six places, that price being not [<= 0] before the
    rounding, and a timestamp that ends in [Z]. *)
Theorem collect_prices_successes (sources : list Source) (out : collected) :
  collect_prices fetch_json clock sources = Ok out ->
  Forall
    (fun point : value =>
       exists (source : Source) (p : float) (t : string),
         In source sources /\
         price_of source = Ok p /\ (p <=? 0)%float = false /\
         point = point_value
                   (mk_point (name source) (round6 p) (t ++ "Z")%string))
    (successes out).
Proof.
  intros H. apply collect_prices_outcomes in H
    as (pps & -> & _ & _ & _ & Hps & _).
  apply Forall_map. revert Hps. apply Forall_impl.
  intros pp (source & n & p & Hin & Hp & ->).
  exists source, p, (clock n). repeat split; auto.
  now apply source_price_sign with source.
Qed.

(** X12. Every failure [collect_prices] returns holds the name of one
    of the sources and the text of the exception that source raised, an
    exception of a class of the [except] clause. *)
Theorem collect_prices_failures (sources : list Source) (out : collected) :
  collect_prices fetch_json clock sources = Ok out ->
  Forall
    (fun f : failure =>
       exists (source : Source) (e : exn),
         In source sources /\ price_of source = Raise e /\
         isinstance e handled = true /\
         failed_api f = name source /\ failed_error f = exn_msg e)
    (failures out).
Proof.
  intros H. apply collect_prices_outcomes in H
    as (pps & _ & _ & _ & _ & _ & Hfs).
  revert Hfs. apply Forall_impl.
  intros f (source & e & Hin & He & Hh & ->). exists source, e. auto.
Qed.

Lemma collect_from_Raise (sources : list Source) :
  forall (n : nat) (acc : collected) (e : exn),
    collect sources n acc = Raise e ->
    exists (front back : list Source) (source : Source),
      sources = front ++ source :: back /\
      price_of source = Raise e /\ isinstance e handled = false /\
      forall (s : Source) (e' : exn),
        In s front -> price_of s = Raise e' -> isinstance e' handled = true.
Proof.
  induction sources as [|source rest IH]; intros n acc e; cbn [collect_from];
    [discriminate|].
  assert (Hcons : forall acc',
             collect rest (S n) acc' = Raise e ->
             (forall e', price_of source = Raise e' -> isinstance e' handled = true) ->
             exists front back s,
               source :: rest = front ++ s :: back /\
               price_of s = Raise e /\ isinstance e handled = false /\
               forall s' e', In s' front -> price_of s' = Raise e' ->
                             isinstance e' handled = true).
  { intros acc' H Hsrc.
    apply IH in H as (front & back & s & -> & Hs & Hh & Hfront).
    exists (source :: front), back, s. repeat split; auto.
    intros s' e' [<-|Hin]; [apply Hsrc | now apply Hfront]. }
  destruct (try_source fetch_json clock source n) as [[point event]|exc] eqn:E.
  - intros H. apply (Hcons _ H). intros e' He'.
    apply try_source_Ok in E as (p & Hp & _). congruence.
  - apply try_source_Raise in E.
    destruct (isinstance exc handled) eqn:Hh.
    + intros H. apply (Hcons _ H). intros e' He'. congruence.
    + intros [= <-]. exists [], rest, source.
      repeat split; auto; intros s e' [].
Qed.

(** X13. [collect_prices] returns exactly when every exception a source
    raises, in its fetch, its parser or the sign check, is of a class of
    the [except] clause. *)
Theorem collect_prices_returns_iff (sources : list Source) :
  (exists out : collected,
     collect_prices fetch_json clock sources = Ok out) <->
  (forall (source : Source) (e : exn),
     In source sources -> price_of source = Raise e ->
     isinstance e handled = true).
Proof.
  split.
  - intros [out Hout] source e Hin He.
    destruct (isinstance e handled) eqn:Hh; [reflexivity|].
    exfalso. revert Hout. unfold collect_prices.
    generalize 0 (mk_collected [] [] []).
    induction sources as [|s rest IH]; intros n acc; [destruct Hin|].
    cbn [collect_from].
    destruct (try_source fetch_json clock s n) as [[point event]|exc] eqn:E.
    + destruct Hin as [->|Hin]; [|now apply IH].
      apply try_source_Ok in E as (p & Hp & _). congruence.
    + apply try_source_Raise in E.
      destruct Hin as [->|Hin].
      * assert (exc = e) by congruence. subst exc. rewrite Hh. discriminate.
      * destruct (isinstance exc handled); [now apply IH | discriminate].
  - intros Hall.
    destruct (collect_prices fetch_json clock sources) as [out|e] eqn:E;
      [eauto|].
    apply collect_from_Raise in E as (front & back & s & -> & Hs & Hh & _).
    rewrite (Hall s e) in Hh; [discriminate | | exact Hs].
    apply in_or_app. right. now left.
Qed.

(** The loop over sources that raise caught exceptions only, then one
    that raises another: that exception leaves the loop, whatever sources
    come after. *)
Lemma collect_from_escape (front : list Source) (source : Source) (e : exn) :
  (forall (s : Source) (e' : exn),
     In s front -> price_of s = Raise e' -> isinstance e' handled = true) ->
  price_of source = Raise e ->
  isinstance e handled = false ->
  forall (back : list Source) (n : nat) (acc : collected),
    collect (front ++ source :: back) n acc = Raise e.
Proof.
  intros Hfront Hsource Hescape back.
  induction front as [|s front IH]; intros n acc; cbn [app collect_from].
  - rewrite (proj2 (try_source_Raise source n e) Hsource), Hescape.
    reflexivity.
  - assert (Hrest : forall (s' : Source) (e' : exn),
               In s' front -> price_of s' = Raise e' ->
               isinstance e' handled = true)
      by (intros s' e' Hin; apply Hfront; now right).
    destruct (try_source fetch_json clock s n) as [[point event]|exc] eqn:E.
    + apply (IH Hrest).
    + apply try_source_Raise in E.
      rewrite (Hfront s exc (or_introl eq_refl) E). apply (IH Hrest).
Qed.

(** X14. An exception that leaves [collect_prices] is the exception of
    the first source, in order, that raises one of no class of the [except]
    clause; the sources after it are not asked: with any other sources in
    their place the same exception leaves [collect_prices]. *)
Theorem collect_prices_raises (sources : list Source) (e : exn) :
  collect_prices fetch_json clock sources = Raise e ->
  exists (front back : list Source) (source : Source),
    sources = front ++ source :: back /\
    price_of source = Raise e /\ isinstance e handled = false /\
    (forall (s : Source) (e' : exn),
       In s front -> price_of s = Raise e' -> isinstance e' handled = true) /\
    (forall others : list Source,
       collect_prices fetch_json clock (front ++ source :: others) = Raise e).
Proof.
  intros H. unfold collect_prices in H.
  apply collect_from_Raise in H as (front & back & source & Hs & Hp & Hh & Hf).
  exists front, back, source.
  repeat match goal with |- _ /\ _ => split end; auto.
  intros others. unfold collect_prices.
  now apply collect_from_escape.
Qed.

Lemma NoDup_map_filter {A B : Type} (f : A -> B) (keep : A -> bool) (l : list A) :
  NoDup (map f l) -> NoDup (map f (filter keep l)).
Proof.
  induction l as [|x l IH]; simpl; [constructor|].
  intros H. inversion H as [|? ? Hnotin Hnd]; subst.
  destruct (keep x); simpl; [|auto].
  constructor; [|auto]. intros Hin. apply Hnotin.
  apply in_map_iff in Hin as (y & <- & Hy). apply in_map.
  now apply filter_In in Hy as [Hy _].
Qed.

(** X15. Over sources with distinct names, no two successes of
    [collect_prices] have the same api name. *)
Theorem collect_prices_distinct (sources : list Source) (out : collected) :
  NoDup (map name sources) ->
  collect_prices fetch_json clock sources = Ok out ->
  exists pps : list PricePoint,
    successes out = map point_value pps /\ NoDup (map point_api pps).
Proof.
  intros Hnd H. apply collect_prices_outcomes in H
    as (pps & Hs & _ & Hn & _ & _ & _).
  exists pps. split; [exact Hs|]. rewrite Hn. now apply NoDup_map_filter.
Qed.

End CollectionOutcomes.

(** ** The parsers: what they raise *)

Section ParserErrors.

Variable float_of_str : string -> option float.

Lemma isinstance_class (e : exn) (c : exn_class) (classes : list exn_class) :
  exn_cls e = c ->
  isinstance e classes = isinstance (mk_exn c []) classes.
Proof. intros <-. reflexivity. Qed.

Lemma handled_classes (e : exn) :
  In (exn_cls e) [KeyError; TypeError; ValueError] ->
  isinstance e handled = true.
Proof.
  intros [H | [H | [H | []]]]; symmetry in H;
    rewrite (isinstance_class e _ handled H); reflexivity.
Qed.

Lemma getitem0_Raise_class (v : value) (e : exn) :
  getitem0 v = Raise e ->
  In (exn_cls e) [IndexError; KeyError; TypeError].
Proof.
  destruct v as [| | | |[|c s]|[|x l]|d]; simpl; try discriminate;
    intros [= <-]; simpl; auto.
Qed.

(** A parser that reads one field, or a field of a field, raises what
    the subscripts or [float] raise. *)
Lemma field_parser_Raise (payload : value) (path : list string) (e : exn) :
  (fix read (v : value) (path : list string) : result float :=
     match path with
     | [] => py_float float_of_str v
     | k :: rest => x <- getitem v k;; read x rest
     end) payload path = Raise e ->
  isinstance e handled = true \/ exn_cls e = OverflowError.
Proof.
  revert payload. induction path as [|k rest IH]; intros payload H.
  - apply py_float_Raise_class in H as [H | [H | H]]; [left | left | now right];
      apply handled_classes; rewrite H; simpl; auto.
  - apply bind_Raise in H as [H | (x & _ & H)]; [|now apply (IH x)].
    left. apply handled_classes.
    apply getitem_Raise_class in H as [-> | ->]; simpl; auto.
Qed.

Lemma parse_kraken_Raise (payload : value) (e : exn) :
  parse_kraken float_of_str payload = Raise e ->
  isinstance e handled = true \/
  In (exn_cls e) [OverflowError; IndexError; AttributeError].
Proof.
  unfold parse_kraken. intros H.
  assert (Hsub : forall v k, getitem v k = Raise e -> isinstance e handled = true).
  { intros v k Hg. apply handled_classes.
    apply getitem_Raise_class in Hg as [-> | ->]; simpl; auto. }
  assert (Hget : forall k, method_get payload k = Raise e ->
                           exn_cls e = AttributeError).
  { intros k. destruct payload; simpl; try (now intros [= <-]).
    destruct (dict_get entries k); discriminate. }
  apply bind_Raise in H as [H | (err & _ & H)].
  { right. rewrite (Hget _ H). simpl. auto. }
  destruct (truthy err).
  { apply bind_Raise in H as [H | (shown & _ & H)]; [left; eauto|].
    injection H as <-. now left. }
  apply bind_Raise in H as [H | (res & _ & H)].
  { right. rewrite (Hget _ H). simpl. auto. }
  destruct res as [| | | | | |[|[first_key first] more]];
    try (injection H as <-; now left).
  apply bind_Raise in H as [H | (entry & _ & H)]; [left; eauto|].
  apply bind_Raise in H as [H | (c & _ & H)]; [left; eauto|].
  apply bind_Raise in H as [H | (close & _ & H)].
  - apply getitem0_Raise_class in H as [H | [H | [H | []]]].
    + right. rewrite <- H. simpl. auto.
    + left. apply handled_classes. rewrite <- H. simpl. auto.
    + left. apply handled_classes. rewrite <- H. simpl. auto.
  - apply py_float_Raise_class in H as [H | [H | H]].
    + left. apply handled_classes. rewrite H. simpl. auto.
    + left. apply handled_classes. rewrite H. simpl. auto.
    + right. rewrite H. simpl. auto.
Qed.

(** X16. What a parser of the registry raises is of a class of the
    [except] clause of [collect_prices], but for three cases, each of which
    occurs: the [OverflowError] of an int too large for a float, which
    every parser raises on some payload, and the [IndexError] and the
    [AttributeError], which [parse_kraken] raises on some payloads and no
    other parser does. *)
Theorem registry_parser_errors (source : Source) :
  In source (SOURCES float_of_str) ->
  (forall (payload : value) (e : exn),
     parser source payload = Raise e ->
     isinstance e handled = true \/
     exn_cls e = OverflowError \/
     (name source = "kraken" /\
      (exn_cls e = IndexError \/ exn_cls e = AttributeError))) /\
  (exists (payload : value) (e : exn),
     parser source payload = Raise e /\
     exn_cls e = OverflowError /\ isinstance e handled = false) /\
  (name source = "kraken" ->
   (exists (payload : value) (e : exn),
      parser source payload = Raise e /\
      exn_cls e = IndexError /\ isinstance e handled = false) /\
   (exists (payload : value) (e : exn),
      parser source payload = Raise e /\
      exn_cls e = AttributeError /\ isinstance e handled = false)).
Proof.
  intros Hin. split; [|split].
  - intros payload e H.
    destruct Hin as [<- | [<- | [<- | [<- | [<- | []]]]]];
      cbn [parser name] in H |- *.
    + apply (field_parser_Raise payload ["near"; "usd"]) in H. tauto.
    + apply (field_parser_Raise payload ["data"; "amount"]) in H. tauto.
    + apply parse_kraken_Raise in H as [H | [H | [H | [H | []]]]]; auto.
    + apply (field_parser_Raise payload ["USD"]) in H. tauto.
    + apply (field_parser_Raise payload ["price"]) in H. tauto.
  - destruct Hin as [<- | [<- | [<- | [<- | [<- | []]]]]]; cbn [parser].
    + exists (VDict [("near", VDict [("usd", huge_int)])]),
        (mk_exn OverflowError []).
      repeat split; vm_compute; reflexivity.
    + exists (VDict [("data", VDict [("amount", huge_int)])]),
        (mk_exn OverflowError []).
      repeat split; vm_compute; reflexivity.
    + exists (VDict [("error", VList []);
                     ("result",
                      VDict [("NEARUSD", VDict [("c", VList [huge_int])])])]),
        (mk_exn OverflowError []).
      repeat split; vm_compute; reflexivity.
    + exists (VDict [("USD", huge_int)]), (mk_exn OverflowError []).
      repeat split; vm_compute; reflexivity.
    + exists (VDict [("price", huge_int)]), (mk_exn OverflowError []).
      repeat split; vm_compute; reflexivity.
  - intros Hname.
    destruct Hin as [<- | [<- | [<- | [<- | [<- | []]]]]];
      cbn [name] in Hname; try discriminate Hname. cbn [parser]. split.
    + exists kraken_empty_close, (mk_exn IndexError []).
      repeat split; vm_compute; reflexivity.
    + exists (VList []), (mk_exn AttributeError []).
      repeat split; vm_compute; reflexivity.
Qed.

(** X17. With no error and a result whose first entry holds the
    last-close field: an empty array, or an empty text, in that field makes
    [parse_kraken] raise [IndexError]; a text that is not empty is read by
    its first character alone. *)
Theorem parse_kraken_close_shapes (d : dict) (first_key : string)
  (entry : value) (rest : dict) (c : value) :
  no_error d ->
  dict_get d "result" = Some (VDict ((first_key, entry) :: rest)) ->
  getitem entry "c" = Ok c ->
  (c = VList [] \/ c = VStr "" ->
   parse_kraken float_of_str (VDict d) = raise IndexError []) /\
  (forall (ch : ascii) (tail : string),
     c = VStr (String ch tail) ->
     parse_kraken float_of_str (VDict d) =
       py_float float_of_str (VStr (String ch ""))).
Proof.
  intros Hno Hres Hc. rewrite (parse_kraken_no_error _ d Hno), Hres, Hc.
  cbn [bind]. split.
  - intros [-> | ->]; reflexivity.
  - intros ch tail ->. reflexivity.
Qed.

End ParserErrors.

(** ** From the collection to the validated record *)

Section Pipeline.

Variable float_of_str : string -> option float.
Variable repr : value -> string.

Local Abbreviation validate := (validate_submission_payload float_of_str repr).
Local Abbreviation entries_ok := (validate_entries float_of_str repr).
Local Abbreviation build := (build_submission float_of_str).

Lemma build_submission_inv (now : string) (pts : list value) (code : string)
  (min_sources : Z) (record : dict) :
  build now pts code min_sources = Ok record ->
  (min_sources <= Z.of_nat (List.length pts))%Z /\
  exists (ps : list float) (m : float),
    prices_of float_of_str pts = Ok ps /\ median ps = Ok m /\
    record = submission_record (VFloat (round6 m)) pts (utc_now_iso now) code.
Proof.
  unfold build_submission.
  destruct (Z.ltb_spec (Z.of_nat (List.length pts)) min_sources) as [|Hge];
    [discriminate|].
  intros H. split; [exact Hge|].
  apply bind_Ok in H as (ps & Hps & H). apply bind_Ok in H as (m & Hm & H).
  injection H as <-. exists ps, m. auto.
Qed.

Lemma submission_record_top_level (median_price : value) (pts : list value)
  (calculated_at code : string) (min_sources : Z) :
  (min_sources <= Z.of_nat (List.length pts))%Z ->
  top_level_ok (submission_record median_price pts calculated_at code)
    min_sources pts.
Proof.
  intros Hmin. split; [|split; [reflexivity | split; [reflexivity | exact Hmin]]].
  intros k Hk. simpl in Hk |- *. tauto.
Qed.

(** X18. The record [build_submission] returns passes every top-level
    check of the validator with the same [min_sources]: the verdict on it is
    the verdict of the loop over the source points it was built from. *)
Theorem build_then_validate_entries (now : string) (pts : list value)
  (code : string) (min_sources : Z) (record : dict) :
  build now pts code min_sources = Ok record ->
  keys record = required_top_level /\
  validate record min_sources = entries_ok (empty_set string) pts.
Proof.
  intros H. apply build_submission_inv in H as (Hmin & ps & m & _ & _ & ->).
  split; [reflexivity|].
  apply validate_top_level. now apply submission_record_top_level.
Qed.

Lemma prices_of_In (pts : list value) :
  forall (ps : list float) (m : float),
    prices_of float_of_str pts = Ok ps -> In m ps ->
    exists item price : value,
      In item pts /\ getitem item "price" = Ok price /\
      py_float float_of_str price = Ok m.
Proof.
  induction pts as [|item pts IH]; intros ps m Hps Hin; simpl in Hps.
  - injection Hps as <-. destruct Hin.
  - apply bind_Ok in Hps as (price & Hprice & Hps).
    apply bind_Ok in Hps as (p & Hp & Hps).
    apply bind_Ok in Hps as (ps' & Hps' & Hps). injection Hps as <-.
    destruct Hin as [<- | Hin].
    + exists item, price. split; [now left | auto].
    + destruct (IH ps' m Hps' Hin) as (it & pr & Hit & Hrest).
      exists it, pr. split; [now right | exact Hrest].
Qed.

(** X19. For an odd number of source points the median of the record
    is, rounded to six places, the price of one of the points. *)
Theorem build_submission_odd (now : string) (pts : list value)
  (code : string) (min_sources : Z) (record : dict) :
  build now pts code min_sources = Ok record ->
  Nat.odd (List.length pts) = true ->
  exists (item price : value) (p : float),
    In item pts /\ getitem item "price" = Ok price /\
    py_float float_of_str price = Ok p /\
    dict_get record "median_price_usd" = Some (VFloat (round6 p)).
Proof.
  intros H Hodd.
  apply build_submission_inv in H as (_ & ps & m & Hps & Hm & ->).
  assert (Hlen : List.length ps = List.length pts)
    by now apply (prices_of_length float_of_str).
  assert (Hin : In m ps).
  { destruct (median_middle ps) as (m' & Hm' & Hmid).
    - intros ->. rewrite <- Hlen in Hodd. discriminate.
    - rewrite Hm in Hm'. injection Hm' as <-. cbv zeta in Hmid.
      rewrite Hlen, Hodd in Hmid. apply nth_error_In in Hmid.
      exact (proj1 (sorted_In PrimFloat.ltb ps m) Hmid). }
  destruct (prices_of_In pts ps m Hps Hin) as (item & price & Hitem & Hprice & Hp).
  exists item, price, m. auto.
Qed.

(** The loop of the validator over price points with distinct names and
    timestamps that end in [Z]: only a price that is [<= 0] can stop it. *)
Lemma validate_entries_price_points (pps : list PricePoint) :
  NoDup (map point_api pps) ->
  Forall (fun pp => exists t : string, point_timestamp pp = (t ++ "Z")%string) pps ->
  forall seen : set string,
    (forall a : string, In a seen -> ~ In a (map point_api pps)) ->
    (Forall (fun pp => (point_price pp <=? 0)%float = false) pps /\
     entries_ok seen (map point_value pps) = Ok tt) \/
    (exists pp : PricePoint,
       In pp pps /\ (point_price pp <=? 0)%float = true /\
       entries_ok seen (map point_value pps) =
         raise ValueError
           [Lit "Invalid non-positive price for source: "; Lit (point_api pp)]).
Proof.
  induction pps as [|pp pps IH]; intros Hnd Hts seen Hseen.
  - left. split; [constructor | reflexivity].
  - cbn [map] in Hnd, Hseen. inversion Hnd as [|? ? Hnotin Hnd']; subst.
    inversion Hts as [|? ? [t Ht] Hts']; subst.
    cbn [map validate_entries].
    pose proof (validate_entry_with_keys float_of_str repr seen
                  [("api", VStr (point_api pp));
                   ("price", VFloat (point_price pp));
                   ("timestamp", VStr (point_timestamp pp))]
                  (VStr (point_api pp)) (VFloat (point_price pp))
                  (VStr (point_timestamp pp)) eq_refl eq_refl eq_refl)
      as Hentry.
    change (VDict [("api", VStr (point_api pp));
                   ("price", VFloat (point_price pp));
                   ("timestamp", VStr (point_timestamp pp))])
      with (point_value pp) in Hentry.
    rewrite Hentry. clear Hentry. cbn [py_str py_float bind].
    rewrite (set_mem_complete2 string_dec);
      [|intros Hin; apply (Hseen _ Hin); now left].
    destruct (point_price pp <=? 0)%float eqn:Hle.
    + right. exists pp. split; [now left | auto].
    + rewrite Ht, endswith_Z. cbn [bind].
      destruct (IH Hnd' Hts' (set_add string_dec (point_api pp) seen))
        as [[Hall Hok] | (bad & Hin & Hbad & Herr)].
      * intros a Ha Hin. apply set_add_iff in Ha as [-> | Ha]; [contradiction|].
        apply (Hseen a Ha). now right.
      * left. split; [now constructor | exact Hok].
      * right. exists bad. split; [now right | auto].
Qed.

Variable fetch_json : string -> result (value * Z * Z).
Variable clock : nat -> string.

Local Abbreviation price_of := (source_price fetch_json).
Local Abbreviation ok := (yields fetch_json).

Lemma collect_from_points (sources : list Source) :
  forall (n : nat) (acc out : collected),
    collect_from fetch_json clock sources n acc = Ok out ->
    exists pps : list PricePoint,
      successes out = successes acc ++ map point_value pps /\
      Forall2 (point_of fetch_json clock) pps (filter ok sources).
Proof.
  induction sources as [|source rest IH]; intros n acc out; cbn [collect_from].
  - intros [= <-]. exists []. simpl. rewrite app_nil_r. split; [reflexivity | constructor].
  - destruct (try_source fetch_json clock source n) as [[point event]|exc] eqn:E.
    + apply try_source_Ok in E as (p & Hp & ->). intros H.
      apply IH in H as (pps & Hs & Hpps). cbn [successes] in Hs.
      exists (mk_point (name source) (round6 p) (utc_now_iso (clock n)) :: pps).
      assert (Hy : ok source = true) by (unfold yields; now rewrite Hp).
      cbn [filter]. rewrite Hy, Hs, <- app_assoc. split; [reflexivity|].
      constructor; [|exact Hpps]. exists n, p. auto.
    + apply try_source_Raise in E.
      destruct (isinstance exc handled); [|discriminate]. intros H.
      apply IH in H as (pps & Hs & Hpps). cbn [successes] in Hs.
      assert (Hy : ok source = false) by (unfold yields; now rewrite E).
      cbn [filter]. rewrite Hy. exists pps. auto.
Qed.

Lemma Forall2_In_right {A B : Type} (R : A -> B -> Prop) (l : list A)
  (l' : list B) (y : B) :
  Forall2 R l l' -> In y l' -> exists x : A, In x l /\ R x y.
Proof.
  induction 1 as [|x y' l l' Hxy _ IH]; [intros []|].
  intros [<- | Hin]; [exists x; split; [now left | exact Hxy]|].
  destruct (IH Hin) as (x' & Hx' & HR). exists x'. split; [now right | exact HR].
Qed.

Lemma Forall2_In_left {A B : Type} (R : A -> B -> Prop) (l : list A)
  (l' : list B) (x : A) :
  Forall2 R l l' -> In x l -> exists y : B, In y l' /\ R x y.
Proof.
  induction 1 as [|x' y l l' Hxy _ IH]; [intros []|].
  intros [<- | Hin]; [exists y; split; [now left | exact Hxy]|].
  destruct (IH Hin) as (y' & Hy' & HR). exists y'. split; [now right | exact HR].
Qed.

(** What the validator says of the record built from a collection over
    sources with distinct names. *)
Lemma collected_record_verdict (sources : list Source) (out : collected)
  (now code : string) (min_sources : Z) :
  NoDup (map name sources) ->
  collect_prices fetch_json clock sources = Ok out ->
  (1 <= min_sources)%Z ->
  (min_sources <= Z.of_nat (List.length (successes out)))%Z ->
  exists record : dict,
    build now (successes out) code min_sources = Ok record /\
    (validate record min_sources = Ok tt <->
     forall (source : Source) (p : float),
       In source sources -> price_of source = Ok p ->
       (round6 p <=? 0)%float = false) /\
    (validate record min_sources = Ok tt \/
     exists (source : Source) (p : float),
       In source sources /\ price_of source = Ok p /\
       (round6 p <=? 0)%float = true /\
       validate record min_sources =
         raise ValueError
           [Lit "Invalid non-positive price for source: "; Lit (name source)]).
Proof.
  intros Hnd Hcollect Hone Hmin.
  apply collect_from_points in Hcollect as (pps & Hs & Hpps).
  simpl in Hs. rewrite Hs in *.
  destruct (build_submission_Ok float_of_str now (map point_value pps)
              (map point_price pps) code min_sources) as (m & _ & Hbuild).
  { destruct pps; [simpl in Hmin; lia | discriminate]. }
  { exact Hmin. }
  { apply prices_of_points. }
  eexists. split; [exact Hbuild|].
  rewrite (validate_top_level float_of_str repr _ _ _
             (submission_record_top_level _ _ _ _ _ Hmin)).
  assert (Hnames : map point_api pps = map name (filter ok sources)).
  { clear -Hpps. induction Hpps as [|pp s pps ss (n & p & _ & ->) _ IH];
      [reflexivity|]. simpl. now rewrite IH. }
  assert (Hdistinct : NoDup (map point_api pps))
    by (rewrite Hnames; now apply NoDup_map_filter).
  assert (Hts : Forall (fun pp => exists t : string,
                          point_timestamp pp = (t ++ "Z")%string) pps).
  { clear -Hpps. induction Hpps as [|pp s pps ss (n & p & _ & ->) _ IH];
      constructor; [now exists (clock n) | exact IH]. }
  assert (Hsrc : forall pp, In pp pps ->
             exists source p, In source sources /\ price_of source = Ok p /\
               point_api pp = name source /\ point_price pp = round6 p).
  { intros pp Hin.
    destruct (Forall2_In_left _ _ _ pp Hpps Hin) as (s & Hs' & n & p & Hp & ->).
    apply filter_In in Hs' as [Hs' _]. exists s, p. auto. }
  destruct (validate_entries_price_points pps Hdistinct Hts (empty_set string))
    as [[Hall Hok] | (bad & Hin & Hbad & Herr)]; [intros a []| |].
  - split; [|now left]. split; [|intros _; exact Hok].
    intros _ source p Hin Hp.
    assert (Hy : In source (filter ok sources)).
    { apply filter_In. split; [exact Hin|]. unfold yields. now rewrite Hp. }
    destruct (Forall2_In_right _ _ _ source Hpps Hy) as (pp & Hpp & n & p' & Hp' & ->).
    assert (p' = p) by congruence. subst p'.
    rewrite Forall_forall in Hall. exact (Hall _ Hpp).
  - destruct (Hsrc bad Hin) as (source & p & Hsin & Hp & Hname & Hprice).
    rewrite Hname in Herr. rewrite Hprice in Hbad.
    split.
    + split; [intros Hok; rewrite Hok in Herr; discriminate|].
      intros Hall. rewrite (Hall source p Hsin Hp) in Hbad. discriminate.
    + right. exists source, p. auto.
Qed.

(** X20. Over sources with distinct names, when the collection returns
    and meets a quorum of at least one, the record is built, and the
    validator accepts it exactly when no price of a source is [<= 0] once
    rounded to six places; when it refuses the record, the error is the one
    of a non-positive price and names such a source. *)
Theorem collect_build_validate (sources : list Source) (out : collected)
  (now code : string) (min_sources : Z) :
  NoDup (map name sources) ->
  collect_prices fetch_json clock sources = Ok out ->
  (1 <= min_sources)%Z ->
  (min_sources <= Z.of_nat (List.length (successes out)))%Z ->
  exists record : dict,
    build now (successes out) code min_sources = Ok record /\
    (validate record min_sources = Ok tt <->
     forall (source : Source) (p : float),
       In source sources -> price_of source = Ok p ->
       (round6 p <=? 0)%float = false) /\
    (validate record min_sources = Ok tt \/
     exists (source : Source) (p : float),
       In source sources /\ price_of source = Ok p /\
       (round6 p <=? 0)%float = true /\
       validate record min_sources =
         raise ValueError
           [Lit "Invalid non-positive price for source: "; Lit (name source)]).
Proof.
  intros Hnd Hcollect Hone Hmin.
  exact (collected_record_verdict sources out now code min_sources
           Hnd Hcollect Hone Hmin).
Qed.

Lemma SOURCES_names : NoDup (map name (SOURCES float_of_str)).
Proof.
  repeat (constructor; [simpl; intuition discriminate|]). constructor.
Qed.


Variable write_json : dict -> result unit.
Variable print_json : dict -> result unit.

Local Abbreviation run_try :=
  (run float_of_str repr fetch_json clock write_json print_json).
Local Abbreviation exit_code :=
  (main float_of_str repr fetch_json clock write_json print_json).


(** X22. With a quorum of at least one, [main] exits with 1 for one of
    five reasons only: a source raised an exception of no class of the
    [except] clause of [collect_prices]; fewer sources than the quorum
    yielded a price; a price that passed the sign check came to zero or
    less once rounded; the write of the output failed; or, the output
    written, the print of the record failed. *)
Theorem main_failure_causes (now : string) (min_sources : Z) (code : string) :
  (1 <= min_sources)%Z ->
  exit_code now min_sources code = Ok 1%Z ->
  (exists (source : Source) (e : exn),
     In source (SOURCES float_of_str) /\ price_of source = Raise e /\
     isinstance e handled = false) \/
  (exists out : collected,
     collect_prices fetch_json clock (SOURCES float_of_str) = Ok out /\
     (Z.of_nat (List.length (successes out)) < min_sources)%Z) \/
  (exists (source : Source) (p : float),
     In source (SOURCES float_of_str) /\ price_of source = Ok p /\
     (p <=? 0)%float = false /\ (round6 p <=? 0)%float = true) \/
  (exists (out : collected) (record : dict) (e : exn),
     collect_prices fetch_json clock (SOURCES float_of_str) = Ok out /\
     build now (successes out) code min_sources = Ok record /\
     validate record min_sources = Ok tt /\ write_json record = Raise e) \/
  (exists (out : collected) (record : dict) (e : exn),
     collect_prices fetch_json clock (SOURCES float_of_str) = Ok out /\
     build now (successes out) code min_sources = Ok record /\
     validate record min_sources = Ok tt /\ write_json record = Ok tt /\
     print_json record = Raise e).
Proof.
  intros Hone. unfold main.
  destruct (run_try now min_sources code) as [record|exc] eqn:E; [discriminate|].
  intros _. unfold run in E.
  apply bind_Raise in E as [E | (out & Hout & E)].
  { left. unfold collect_prices in E. apply collect_from_Raise in E
      as (front & back & source & Hsplit & Hp & Hh & _).
    exists source, exc. split; [|auto].
    rewrite Hsplit. apply in_or_app. right. now left. }
  right.
  destruct (Z.ltb_spec (Z.of_nat (List.length (successes out))) min_sources)
    as [Hlt | Hge]; [left; eauto|].
  right.
  destruct (collected_record_verdict (SOURCES float_of_str) out now code
              min_sources SOURCES_names Hout Hone Hge)
    as (record & Hbuild & _ & [Hvalid | (source & p & Hin & Hp & Hle & Herr)]).
  - right. rewrite Hbuild in E. cbn [bind] in E. rewrite Hvalid in E.
    cbn [bind] in E. apply bind_Raise in E as [E | ([] & Hwrite & E)];
      [left; exists out, record, exc; auto|].
    right. apply bind_Raise in E as [E | ([] & _ & E)];
      [exists out, record, exc; auto 6 | discriminate].
  - left. exists source, p. repeat split; auto.
    exact (source_price_sign fetch_json source p Hp).
Qed.

End Pipeline.

(** ** Edges: a NaN, a quorum of zero, the order of the missing fields *)

Lemma nan_not_leb (p q : float) : is_nan p = true -> (p <=? q)%float = false.
Proof.
  intros H. rewrite leb_spec. unfold Prim2SF at 1. rewrite H. reflexivity.
Qed.

Lemma round6_nan (p : float) : is_nan p = true -> round6 p = p.
Proof. intros H. unfold round6, Prim2SF. rewrite H. reflexivity. Qed.

(** X23. A NaN is stopped nowhere: [price <= 0] is false of it, so
    [collect_prices] keeps a source whose parser returned a NaN as a
    success, with the NaN as its price, and the validator passes an entry
    whose price is a NaN. *)
Theorem nan_price_passes (p : float) :
  is_nan p = true ->
  (forall (fetch_json : string -> result (value * Z * Z)) (clock : nat -> string)
          (source : Source) (n : nat) (payload : value) (status bytes : Z),
     fetch_json (url source) = Ok (payload, status, bytes) ->
     parser source payload = Ok p ->
     try_source fetch_json clock source n =
       Ok (point_value (mk_point (name source) p (utc_now_iso (clock n))),
           api_call_success (name source) status bytes p (url source))) /\
  (forall (float_of_str : string -> option float) (repr : value -> string)
          (seen : set string) (api t : string),
     ~ In api seen ->
     validate_entry float_of_str repr seen
       (point_value (mk_point api p (t ++ "Z")%string)) =
       Ok (set_add string_dec api seen)).
Proof.
  intros Hnan. split.
  - intros fetch_json clock source n payload status bytes Hfetch Hparse.
    unfold try_source. rewrite Hfetch. cbn [bind]. rewrite Hparse. cbn [bind].
    rewrite (nan_not_leb p 0 Hnan), (round6_nan p Hnan). reflexivity.
  - intros float_of_str repr seen api t Hnew.
    unfold validate_entry, point_value. simpl.
    rewrite (set_mem_complete2 string_dec _ _ Hnew).
    rewrite (nan_not_leb p 0 Hnan), endswith_Z. reflexivity.
Qed.

(** X24. With a quorum of zero or less and no source point the quorum
    check passes and [build_submission] fails in the median, with the
    [StatisticsError] of empty data; the validator, with that quorum,
    accepts a record that has the five fields and no source. *)
Theorem zero_quorum (float_of_str : string -> option float)
  (repr : value -> string) (now code calculated_at : string)
  (median_price : value) (min_sources : Z) :
  (min_sources <= 0)%Z ->
  build_submission float_of_str now [] code min_sources =
    raise StatisticsError [Lit "no median for empty data"] /\
  validate_submission_payload float_of_str repr
    (submission_record median_price [] calculated_at code) min_sources = Ok tt.
Proof.
  intros Hmin. split.
  - unfold build_submission. simpl.
    destruct (Z.ltb_spec 0 min_sources); [lia | reflexivity].
  - unfold validate_submission_payload. simpl.
    destruct (Z.ltb_spec 0 min_sources); [lia | reflexivity].
Qed.

Lemma string_ltb_leb (x y : string) :
  String.ltb x y = true -> String.leb x y = true.
Proof.
  unfold String.ltb, String.leb.
  destruct (String.compare x y); simpl; auto.
Qed.

Lemma string_not_ltb_leb (x y : string) :
  String.ltb y x = false -> String.leb x y = true.
Proof.
  unfold String.ltb, String.leb. rewrite (String.compare_antisym x y).
  destruct (String.compare y x); simpl; intros H;
    (reflexivity || discriminate H).
Qed.

(** X25. The fields the error of the validator lists as missing are in
    alphabetical order, each of them once. *)
Theorem validate_missing_in_order (float_of_str : string -> option float)
  (repr : value -> string) (payload : dict) (min_sources : Z) :
  (exists k : string, In k required_top_level /\ ~ In k (keys payload)) ->
  exists listed : list string,
    validate_submission_payload float_of_str repr payload min_sources =
      raise ValueError
        [Lit "Submission missing required top-level fields: ";
         Fmt (VList (map VStr listed))] /\
    Sorted (fun a b : string => String.leb a b = true) listed /\
    NoDup listed.
Proof.
  intros (k & Hreq & Hmiss). unfold validate_submission_payload.
  assert (Hnd : NoDup (set_diff string_dec required_top_level (keys payload))).
  { apply set_diff_nodup. repeat (constructor; [simpl; intuition discriminate|]).
    constructor. }
  destruct (set_diff string_dec required_top_level (keys payload))
    as [|x missing] eqn:E.
  - exfalso.
    assert (Hin : In k (set_diff string_dec required_top_level (keys payload)))
      by (apply set_diff_iff; split; assumption).
    rewrite E in Hin. contradiction.
  - exists (sorted String.ltb (x :: missing)). split; [reflexivity|]. split.
    + apply (sorted_Sorted String.ltb _ (fun _ => True)).
      * apply string_ltb_leb.
      * intros a b _ _. apply string_not_ltb_leb.
      * apply Forall_forall. auto.
    + apply (Permutation_NoDup (l := x :: missing)); [|exact Hnd].
      symmetry. apply sorted_perm.
Qed.

(** ** The further properties at closed inputs *)

Ltac top_level_holds :=
  split; [intros k Hk; simpl in Hk |- *; tauto|];
  split; [reflexivity|]; split; [reflexivity | simpl; lia].

Ltac front_holds :=
  constructor;
  [eexists _, _, _, _, _; repeat split; reflexivity | constructor].

Ltac front_distinct :=
  simpl; constructor; [intros [] | constructor].

Ltac new_name := simpl; intros [H | []]; discriminate H.

Example collect_prices_mixed :
  collect_prices fetch_mixed example_clock (SOURCES float_of_decimal)
  = Ok mixed_out.
Proof. vm_compute. reflexivity. Qed.

(** X2, at an entry that is a text. *)
Lemma text_entry_refused :
  validate_submission_payload float_of_decimal repr_constant
    (record_of (good_front ++ VStr "kraken" :: good_back)) 2 =
    raise ValueError [Lit "Each source entry must be an object"].
Proof.
  apply (validate_entry_not_object float_of_decimal repr_constant
           (record_of (good_front ++ VStr "kraken" :: good_back)) 2
           good_front good_back (VStr "kraken")).
  - top_level_holds.
  - front_holds.
  - front_distinct.
  - discriminate.
Defined.

(** X3, at an entry without a price. *)
Lemma priceless_entry_refused :
  exists key : string,
    In key entry_keys /\ ~ In key (keys priceless_entry) /\
    validate_submission_payload float_of_decimal repr_constant
      (record_of (good_front ++ VDict priceless_entry :: good_back)) 2 =
      raise ValueError [Lit "Source entry missing key: "; Lit key].
Proof.
  apply (validate_entry_missing_key float_of_decimal repr_constant
           (record_of (good_front ++ VDict priceless_entry :: good_back)) 2
           good_front good_back priceless_entry).
  - top_level_holds.
  - front_holds.
  - front_distinct.
  - exists "price". split; simpl; [auto | intuition discriminate].
Defined.

(** X4, at an entry whose price is zero. *)
Lemma zero_price_entry_refused :
  validate_submission_payload float_of_decimal repr_constant
    (record_of (good_front ++ VDict zero_price_entry :: good_back)) 2 =
    raise ValueError
      [Lit "Invalid non-positive price for source: "; Lit "kraken"].
Proof.
  apply (validate_entry_nonpositive float_of_decimal repr_constant
           (record_of (good_front ++ VDict zero_price_entry :: good_back)) 2
           good_front good_back zero_price_entry (VStr "kraken") (VFloat 0)
           (VStr "2026-02-22T00:00:01Z") 0%float);
    try reflexivity.
  - top_level_holds.
  - front_holds.
  - front_distinct.
  - new_name.
Defined.

(** X5, at an entry whose timestamp lacks the [Z]. *)
Lemma local_time_entry_refused :
  validate_submission_payload float_of_decimal repr_constant
    (record_of (good_front ++ VDict local_time_entry :: good_back)) 2 =
    raise ValueError
      [Lit "Timestamp must be UTC ISO string ending with 'Z': "; Lit "kraken"].
Proof.
  apply (validate_entry_timestamp float_of_decimal repr_constant
           (record_of (good_front ++ VDict local_time_entry :: good_back)) 2
           good_front good_back local_time_entry (VStr "kraken") (VFloat 1.5)
           (VStr "2026-02-22T00:00:01") 1.5%float);
    try reflexivity.
  - top_level_holds.
  - front_holds.
  - front_distinct.
  - new_name.
Defined.

(** X6, at an entry whose price is [None]. *)
Lemma null_price_entry_type_error :
  validate_submission_payload float_of_decimal repr_constant
    (record_of (good_front ++ VDict null_price_entry :: good_back)) 2 =
    raise TypeError [] /\
  In TypeError [TypeError; ValueError; OverflowError].
Proof.
  apply (validate_entry_float_error float_of_decimal repr_constant
           (record_of (good_front ++ VDict null_price_entry :: good_back)) 2
           good_front good_back null_price_entry (VStr "kraken") VNone
           (VStr "2026-02-22T00:00:01Z") (mk_exn TypeError []));
    try reflexivity.
  - top_level_holds.
  - front_holds.
  - front_distinct.
  - new_name.
Defined.

(** X7, at a second entry of [coingecko] whose price and timestamp are
    bad as well. *)
Lemma repeated_entry_is_a_duplicate :
  validate_submission_payload float_of_decimal repr_constant
    (record_of (good_front ++ VDict repeated_entry :: good_back)) 2 =
    raise ValueError [Lit "Duplicate API source found: "; Lit "coingecko"].
Proof.
  apply (validate_entry_duplicate_first float_of_decimal repr_constant
           (record_of (good_front ++ VDict repeated_entry :: good_back)) 2
           good_front good_back repeated_entry (VStr "coingecko") (VFloat 0)
           (VStr "2026-02-22T00:00:01"));
    try reflexivity.
  - top_level_holds.
  - front_holds.
  - front_distinct.
  - simpl. now left.
Defined.

(** X8, at a record whose method is [mean] and whose sources are a
    text. *)
Lemma mean_method_refused :
  validate_submission_payload float_of_decimal repr_constant
    [("median_price_usd", VFloat 1); ("sources", VStr "none");
     ("calculation_method", VStr "mean");
     ("calculated_at", VStr "2026-02-22T00:00:05Z");
     ("code_or_logs", VStr "logs")] 3 =
    raise ValueError [Lit "calculation_method must be 'median'"].
Proof.
  apply (proj1 (validate_top_level_errors float_of_decimal repr_constant
                  [("median_price_usd", VFloat 1); ("sources", VStr "none");
                   ("calculation_method", VStr "mean");
                   ("calculated_at", VStr "2026-02-22T00:00:05Z");
                   ("code_or_logs", VStr "logs")] 3 (VStr "mean") (VStr "none")
                  (fun k Hk => ltac:(simpl in Hk |- *; tauto))
                  eq_refl eq_refl)).
  discriminate.
Defined.

(** X9 to X12 and X15, at the mixed network. *)
Lemma mixed_one_outcome :
  List.length (successes mixed_out) + List.length (failures mixed_out)
    = List.length (SOURCES float_of_decimal) /\
  List.length (run_log mixed_out) = List.length (SOURCES float_of_decimal).
Proof.
  apply (collect_prices_one_outcome fetch_mixed example_clock
           (SOURCES float_of_decimal) mixed_out).
  vm_compute. reflexivity.
Defined.

Lemma mixed_in_order :
  exists pps : list PricePoint,
    successes mixed_out = map point_value pps /\
    map point_api pps =
      map name (filter (yields fetch_mixed) (SOURCES float_of_decimal)) /\
    map failed_api (failures mixed_out) =
      map name (filter (fun s => negb (yields fetch_mixed s))
                  (SOURCES float_of_decimal)).
Proof.
  apply (collect_prices_in_order fetch_mixed example_clock
           (SOURCES float_of_decimal) mixed_out).
  vm_compute. reflexivity.
Defined.

Lemma mixed_successes :
  Forall
    (fun point : value =>
       exists (source : Source) (p : float) (t : string),
         In source (SOURCES float_of_decimal) /\
         source_price fetch_mixed source = Ok p /\
         (p <=? 0)%float = false /\
         point = point_value
                   (mk_point (name source) (round6 p) (t ++ "Z")%string))
    (successes mixed_out).
Proof.
  apply (collect_prices_successes fetch_mixed example_clock
           (SOURCES float_of_decimal) mixed_out).
  vm_compute. reflexivity.
Defined.

Lemma mixed_failures :
  Forall
    (fun f : failure =>
       exists (source : Source) (e : exn),
         In source (SOURCES float_of_decimal) /\
         source_price fetch_mixed source = Raise e /\
         isinstance e handled = true /\
         failed_api f = name source /\ failed_error f = exn_msg e)
    (failures mixed_out).
Proof.
  apply (collect_prices_failures fetch_mixed example_clock
           (SOURCES float_of_decimal) mixed_out).
  vm_compute. reflexivity.
Defined.

Lemma mixed_distinct :
  exists pps : list PricePoint,
    successes mixed_out = map point_value pps /\ NoDup (map point_api pps).
Proof.
  apply (collect_prices_distinct fetch_mixed example_clock
           (SOURCES float_of_decimal) mixed_out).
  - apply SOURCES_names.
  - vm_compute. reflexivity.
Defined.

(** X14, at the network whose Kraken body has an empty last-close
    array. *)
Lemma empty_close_first_escape :
  exists (front back : list Source) (source : Source),
    SOURCES float_of_decimal = front ++ source :: back /\
    source_price fetch_empty_close source = raise IndexError [] /\
    isinstance (mk_exn IndexError []) handled = false /\
    (forall (s : Source) (e' : exn),
       In s front -> source_price fetch_empty_close s = Raise e' ->
       isinstance e' handled = true) /\
    (forall others : list Source,
       collect_prices fetch_empty_close example_clock
         (front ++ source :: others) = raise IndexError []).
Proof.
  apply (collect_prices_raises fetch_empty_close example_clock
           (SOURCES float_of_decimal) (mk_exn IndexError [])).
  vm_compute. reflexivity.
Defined.

(** X16, at the Kraken source of the registry. *)
Lemma kraken_index_error_class :
  (forall (payload : value) (e : exn),
     parser kraken_source payload = Raise e ->
     isinstance e handled = true \/
     exn_cls e = OverflowError \/
     (name kraken_source = "kraken" /\
      (exn_cls e = IndexError \/ exn_cls e = AttributeError))) /\
  (exists (payload : value) (e : exn),
     parser kraken_source payload = Raise e /\
     exn_cls e = OverflowError /\ isinstance e handled = false) /\
  (name kraken_source = "kraken" ->
   (exists (payload : value) (e : exn),
      parser kraken_source payload = Raise e /\
      exn_cls e = IndexError /\ isinstance e handled = false) /\
   (exists (payload : value) (e : exn),
      parser kraken_source payload = Raise e /\
      exn_cls e = AttributeError /\ isinstance e handled = false)).
Proof.
  apply (registry_parser_errors float_of_decimal kraken_source).
  simpl. auto.
Defined.

Example parser_escapes :
  parse_binance float_of_decimal (VDict [("price", huge_int)])
    = raise OverflowError [] /\
  parse_kraken float_of_decimal kraken_empty_close = raise IndexError [] /\
  parse_kraken float_of_decimal (VList []) = raise AttributeError [].
Proof. repeat split; vm_compute; reflexivity. Qed.

(** X17, at a last-close field that holds the text [12.5]: the price
    read is 1. *)
Lemma kraken_text_close_first_character :
  (VStr "12.5" = VList [] \/ VStr "12.5" = VStr "" ->
   parse_kraken float_of_decimal (VDict kraken_text_close) =
     raise IndexError []) /\
  (forall (ch : ascii) (tail : string),
     VStr "12.5" = VStr (String ch tail) ->
     parse_kraken float_of_decimal (VDict kraken_text_close) =
       py_float float_of_decimal (VStr (String ch ""))).
Proof.
  apply (parse_kraken_close_shapes float_of_decimal kraken_text_close
           "NEARUSD" (VDict [("c", VStr "12.5")]) [] (VStr "12.5")).
  - intros err H. simpl in H. injection H as <-. reflexivity.
  - reflexivity.
  - reflexivity.
Defined.

Example kraken_text_close_price :
  parse_kraken float_of_decimal (VDict kraken_text_close) = Ok 1%float.
Proof. vm_compute. reflexivity. Qed.

(** X18, at the four sources. *)
Lemma four_sources_top_level :
  keys (submission_record (VFloat 2.5) four_sources "2026-02-22T00:00:05Z"
          "code+logs") = required_top_level /\
  validate_submission_payload float_of_decimal repr_constant
    (submission_record (VFloat 2.5) four_sources "2026-02-22T00:00:05Z"
       "code+logs") 3 =
    validate_entries float_of_decimal repr_constant (empty_set string)
      four_sources.
Proof.
  apply (build_then_validate_entries float_of_decimal repr_constant
           "2026-02-22T00:00:05" four_sources "code+logs" 3).
  vm_compute. reflexivity.
Defined.

(** X19, at three points: the median is the price of one of them. *)
Lemma three_points_median_is_a_price :
  exists (item price : value) (p : float),
    In item (map point_value three_points) /\
    getitem item "price" = Ok price /\
    py_float float_of_decimal price = Ok p /\
    dict_get valid_payload "median_price_usd" = Some (VFloat (round6 p)).
Proof.
  apply (build_submission_odd float_of_decimal "2026-02-22T00:00:05"
           (map point_value three_points) "logs" 3 valid_payload).
  - vm_compute. reflexivity.
  - reflexivity.
Defined.

(** X20, at the mixed network with a quorum of three. *)
Lemma mixed_run_validates :
  exists record : dict,
    build_submission float_of_decimal "2026-02-22T00:00:05"
      (successes mixed_out) "logs" 3 = Ok record /\
    (validate_submission_payload float_of_decimal repr_constant record 3
       = Ok tt <->
     forall (source : Source) (p : float),
       In source (SOURCES float_of_decimal) ->
       source_price fetch_mixed source = Ok p ->
       (round6 p <=? 0)%float = false) /\
    (validate_submission_payload float_of_decimal repr_constant record 3
       = Ok tt \/
     exists (source : Source) (p : float),
       In source (SOURCES float_of_decimal) /\
       source_price fetch_mixed source = Ok p /\
       (round6 p <=? 0)%float = true /\
       validate_submission_payload float_of_decimal repr_constant record 3 =
         raise ValueError
           [Lit "Invalid non-positive price for source: "; Lit (name source)]).
Proof.
  apply (collect_build_validate float_of_decimal repr_constant fetch_mixed
           example_clock (SOURCES float_of_decimal) mixed_out
           "2026-02-22T00:00:05" "logs" 3).
  - apply SOURCES_names.
  - vm_compute. reflexivity.
  - lia.
  - simpl. lia.
Defined.

(** X22, at the network whose Kraken body has an empty last-close
    array: the exit code is 1. *)
Lemma empty_close_exit_code :
  (exists (source : Source) (e : exn),
     In source (SOURCES float_of_decimal) /\
     source_price fetch_empty_close source = Raise e /\
     isinstance e handled = false) \/
  (exists out : collected,
     collect_prices fetch_empty_close example_clock (SOURCES float_of_decimal)
       = Ok out /\
     (Z.of_nat (List.length (successes out)) < 3)%Z) \/
  (exists (source : Source) (p : float),
     In source (SOURCES float_of_decimal) /\
     source_price fetch_empty_close source = Ok p /\
     (p <=? 0)%float = false /\ (round6 p <=? 0)%float = true) \/
  (exists (out : collected) (record : dict) (e : exn),
     collect_prices fetch_empty_close example_clock (SOURCES float_of_decimal)
       = Ok out /\
     build_submission float_of_decimal "2026-02-22T00:00:05" (successes out)
       "logs" 3 = Ok record /\
     validate_submission_payload float_of_decimal repr_constant record 3
       = Ok tt /\
     write_ok record = Raise e) \/
  (exists (out : collected) (record : dict) (e : exn),
     collect_prices fetch_empty_close example_clock (SOURCES float_of_decimal)
       = Ok out /\
     build_submission float_of_decimal "2026-02-22T00:00:05" (successes out)
       "logs" 3 = Ok record /\
     validate_submission_payload float_of_decimal repr_constant record 3
       = Ok tt /\
     write_ok record = Ok tt /\ print_ok record = Raise e).
Proof.
  assert (Hone : (1 <= 3)%Z) by lia.
  apply (main_failure_causes float_of_decimal repr_constant fetch_empty_close
           example_clock write_ok print_ok "2026-02-22T00:00:05" 3 "logs" Hone).
  vm_compute. reflexivity.
Defined.

Example mixed_exit_code :
  main float_of_decimal repr_constant fetch_mixed example_clock write_ok
    print_ok "2026-02-22T00:00:05" 3 "logs" = Ok 0%Z.
Proof. vm_compute. reflexivity. Qed.

(** The output written and the standard output closed: the exit code is
    1. *)
Example closed_output_exit_code :
  main float_of_decimal repr_constant fetch_mixed example_clock write_ok
    print_closed "2026-02-22T00:00:05" 3 "logs" = Ok 1%Z.
Proof. vm_compute. reflexivity. Qed.

(** X23, at the NaN of the floats. *)
Lemma nan_passes :
  (forall (fetch_json : string -> result (value * Z * Z)) (clock : nat -> string)
          (source : Source) (n : nat) (payload : value) (status bytes : Z),
     fetch_json (url source) = Ok (payload, status, bytes) ->
     parser source payload = Ok nan ->
     try_source fetch_json clock source n =
       Ok (point_value (mk_point (name source) nan (utc_now_iso (clock n))),
           api_call_success (name source) status bytes nan (url source))) /\
  (forall (float_of_str : string -> option float) (repr : value -> string)
          (seen : set string) (api t : string),
     ~ In api seen ->
     validate_entry float_of_str repr seen
       (point_value (mk_point api nan (t ++ "Z")%string)) =
       Ok (set_add string_dec api seen)).
Proof. apply (nan_price_passes nan). reflexivity. Defined.

(** X24, at a quorum of zero. *)
Lemma zero_quorum_empty :
  build_submission float_of_decimal "2026-02-22T00:00:05" [] "logs" 0 =
    raise StatisticsError [Lit "no median for empty data"] /\
  validate_submission_payload float_of_decimal repr_constant
    (submission_record VNone [] "2026-02-22T00:00:05Z" "logs") 0 = Ok tt.
Proof.
  apply (zero_quorum float_of_decimal repr_constant "2026-02-22T00:00:05"
           "logs" "2026-02-22T00:00:05Z" VNone 0).
  lia.
Defined.

(** X25, at the payload that holds the sources only. *)
Lemma sources_only_payload_in_order :
  exists listed : list string,
    validate_submission_payload float_of_decimal repr_constant
      sources_only_payload 3 =
      raise ValueError
        [Lit "Submission missing required top-level fields: ";
         Fmt (VList (map VStr listed))] /\
    Sorted (fun a b : string => String.leb a b = true) listed /\
    NoDup listed.
Proof.
  apply (validate_missing_in_order float_of_decimal repr_constant
           sources_only_payload 3).
  exists "median_price_usd". split; simpl; [auto | intuition discriminate].
Defined.

(** The decimal that [six_places] asks for is one decimal: of the float
    nearest to 2.6750005 it is 2.675000, and a float is its rounding only
    if it is the float of that decimal. *)
Example six_places_of_2_6750005 (r : float) :
  six_places 0x1.56666a98244e9p+1 r -> float_of_millionths false 2675000 r.
Proof.
  unfold six_places.
  replace (Prim2SF 0x1.56666a98244e9p+1)
    with (S754_finite false 6023565627507945 (-51))
    by (vm_compute; reflexivity).
  intros (n & Hnear & Hfloat).
  assert (Hden : (0 < snd (scaled 6023565627507945 (-51)))%Z)
    by (vm_compute; reflexivity).
  assert (Hmine : nearest_even (fst (scaled 6023565627507945 (-51)))
                    (snd (scaled 6023565627507945 (-51))) 2675000).
  { split; [vm_compute; discriminate|].
    intros H. vm_compute in H. discriminate H. }
  rewrite <- (nearest_even_unique _ _ _ _ Hden Hnear Hmine). exact Hfloat.
Qed.
